(** * Mood Food Recommender: the recommendation scoring core

    A shallow embedding of the scoring pipeline of the Mood Food
    Recommender ([utils/user_profile.py], [utils/filters.py],
    [utils/mood_analyzer.py], [model/embedder.py] and the recommendation
    block of [app.py]) together with the properties its specification
    states about it.

    Conventions of the embedding.
    - Python [float] values are rationals ([Q]); the decimal literals of
      the source are the rationals they denote.  Python's two-argument
      [max]/[min] return their first argument unless the second is
      strictly larger/smaller, which is what [Qmax]/[Qmin] compute.
    - Python [int] values are [Z]; lengths and positions are [nat].
    - [str] is [string]; [str.lower] is modelled on ASCII letters.
    - A [dict] whose iteration order is irrelevant is a [gmap]; the two
      keyword tables, which are iterated in definition order, are
      association lists.
    - [datetime] values are integers (microseconds); a stored ISO
      timestamp is [Some t], a missing or unparsable one is [None].
    - The profile kept in [st.session_state.user_preferences] is threaded
      explicitly through the operations; the clock is an argument. *)

From Stdlib Require Import ZArith QArith Qminmax Lqa.
From Stdlib Require Import Strings.String Strings.Ascii.
From Stdlib Require Import Sorting.Sorted Sorting.Permutation.
From stdpp Require Import gmap strings list fin_maps.

#[local] Open Scope Q_scope.
#[local] Open Scope string_scope.
#[local] Open Scope list_scope.

(** ** Configuration ([config.py]) *)

Module Config.

Definition MAX_RECOMMENDATIONS : Z := 3.
Definition MAX_SAME_CUISINE : Z := 2.

(** [LEARNING_RATES] *)
Definition cuisine_boost : Q := 1 # 10.
Definition feedback_decay : Q := 95 # 100.
Definition max_history : nat := 50.

(** [EMBEDDING_WEIGHTS]; [get_enhanced_embedding] writes the same numbers
    as literals. *)
Definition w_text : Q := 7 # 10.
Definition w_cuisine : Q := 2 # 10.
Definition w_time : Q := 1 # 10.
Definition w_duration : Q := 1 # 10.

End Config.

(** ** Python list helpers *)

(** [x in l] *)
Definition py_in (x : string) (l : list string) : bool := bool_decide (x ∈ l).

(** [l.remove(x)]: deletes the first occurrence only.  Python raises
    [ValueError] when [x] is absent; every call in the source is guarded
    by [x in l]. *)
Fixpoint py_remove (x : string) (l : list string) : list string :=
  match l with
  | [] => []
  | y :: l' => if decide (x = y) then l' else y :: py_remove x l'
  end.

(** [l[-n:]]: the last [n] elements (all of [l] when it is shorter). *)
Definition py_last_n {A} (n : nat) (l : list A) : list A :=
  drop (length l - n)%nat l.

(** [if x not in l: l.append(x)] *)
Definition append_if_absent (x : string) (l : list string) : list string :=
  if py_in x l then l else l ++ [x].

(** [if x in l: l.remove(x)] *)
Definition remove_if_present (x : string) (l : list string) : list string :=
  if py_in x l then py_remove x l else l.

(** ** The user profile ([utils/user_profile.py]) *)

Module UserProfile.

(** A recipe seen through [dict.get]: every field may be absent. *)
Record RecipeData := mkRecipeData {
  rd_title : option string;
  rd_cuisine : option string;
  rd_meal_time : option string;
  rd_cook_time : option Z }.

(** One entry of [feedback_history]. *)
Record Feedback := mkFeedback {
  fb_recipe_title : string;
  fb_rating : Z;
  fb_mood_tags : list string;
  fb_timestamp : option Z;
  fb_cuisine : option string;
  fb_meal_time : option string;
  fb_cook_time : option Z }.

(** [st.session_state.user_preferences] *)
Record Profile := mkProfile {
  liked_recipes : list string;
  disliked_recipes : list string;
  cuisine_preferences : gmap string Q;
  mood_patterns : gmap string (list string);
  feedback_history : list Feedback;
  creation_date : option Z;
  last_updated : option Z }.

(** [initialize_profile], on a session without a profile. *)
Definition initialize_profile (now : Z) : Profile :=
  {| liked_recipes := [];
     disliked_recipes := [];
     cuisine_preferences :=
       <["Desi" := 0]> (<["Arabic" := 0]> (<["Western" := 0]> ∅));
     mood_patterns := ∅;
     feedback_history := [];
     creation_date := Some now;
     last_updated := Some now |}.

(** The three keys [initialize_profile] creates. *)
Definition preset_cuisines : list string := ["Desi"; "Arabic"; "Western"].

(** The cuisine update of the positive branch:
    [if recipe_data.get('cuisine') in prefs['cuisine_preferences']:
       prefs[..][c] = min(1.0, current + LEARNING_RATES['cuisine_boost'])] *)
Definition raise_cuisine (cuisine : option string) (m : gmap string Q)
  : gmap string Q :=
  match cuisine with
  | Some c =>
      match m !! c with
      | Some current => <[c := Qmin 1 (current + Config.cuisine_boost)]> m
      | None => m
      end
  | None => m
  end.

(** The cuisine update of the negative branch:
    [max(-0.5, current - LEARNING_RATES['cuisine_boost'] * 0.5)] *)
Definition lower_cuisine (cuisine : option string) (m : gmap string Q)
  : gmap string Q :=
  match cuisine with
  | Some c =>
      match m !! c with
      | Some current =>
          <[c := Qmax (-1 # 2) (current - Config.cuisine_boost * (1 # 2))]> m
      | None => m
      end
  | None => m
  end.

(** One round of the loop [for tag in mood_tags]. *)
Definition learn_tag (recipe_title : string)
  (m : gmap string (list string)) (tag : string) : gmap string (list string) :=
  let m1 := match m !! tag with Some _ => m | None => <[tag := []]> m end in
  let titles := default [] (m1 !! tag) in
  if py_in recipe_title titles then m1
  else <[tag := titles ++ [recipe_title]]> m1.

(** [add_feedback]; [now] is the value of [datetime.now()].  The final
    [save_profile] only writes the profile to disk. *)
Definition add_feedback (now : Z) (recipe_title : string) (rating : Z)
  (mood_tags : list string) (recipe_data : RecipeData) (prefs : Profile)
  : Profile :=
  let feedback :=
    {| fb_recipe_title := recipe_title;
       fb_rating := rating;
       fb_mood_tags := mood_tags;
       fb_timestamp := Some now;
       fb_cuisine := rd_cuisine recipe_data;
       fb_meal_time := rd_meal_time recipe_data;
       fb_cook_time := rd_cook_time recipe_data |} in
  let history := feedback_history prefs ++ [feedback] in
  let history :=
    if decide (Config.max_history < length history)%nat
    then py_last_n Config.max_history history else history in
  if decide (4 ≤ rating)%Z then
    {| liked_recipes := append_if_absent recipe_title (liked_recipes prefs);
       disliked_recipes :=
         remove_if_present recipe_title (disliked_recipes prefs);
       cuisine_preferences :=
         raise_cuisine (rd_cuisine recipe_data) (cuisine_preferences prefs);
       mood_patterns :=
         fold_left (learn_tag recipe_title) mood_tags (mood_patterns prefs);
       feedback_history := history;
       creation_date := creation_date prefs;
       last_updated := Some now |}
  else if decide (rating ≤ 2)%Z then
    {| liked_recipes := remove_if_present recipe_title (liked_recipes prefs);
       disliked_recipes :=
         append_if_absent recipe_title (disliked_recipes prefs);
       cuisine_preferences :=
         lower_cuisine (rd_cuisine recipe_data) (cuisine_preferences prefs);
       mood_patterns := mood_patterns prefs;
       feedback_history := history;
       creation_date := creation_date prefs;
       last_updated := Some now |}
  else
    {| liked_recipes := liked_recipes prefs;
       disliked_recipes := disliked_recipes prefs;
       cuisine_preferences := cuisine_preferences prefs;
       mood_patterns := mood_patterns prefs;
       feedback_history := history;
       creation_date := creation_date prefs;
       last_updated := Some now |}.

(** [timedelta(days=1)] in microseconds. *)
Definition day : Z := 86400000000.

(** [_get_recent_feedback]: entries whose timestamp parses and is later
    than the cutoff; the others are skipped. *)
Definition _get_recent_feedback (now : Z) (days : Z) (prefs : Profile)
  : list Feedback :=
  let cutoff_date := (now - days * day)%Z in
  List.filter
    (fun feedback =>
       match fb_timestamp feedback with
       | Some feedback_date => bool_decide (cutoff_date < feedback_date)%Z
       | None => false
       end)
    (feedback_history prefs).

(** [get_personalized_boost] on a session that holds a profile. *)
Definition personalized_boost (now : Z) (prefs : Profile)
  (recipe_row : RecipeData) : Q :=
  let boost := 0 in
  let cuisine := rd_cuisine recipe_row in
  let boost :=
    match cuisine with
    | Some c =>
        match cuisine_preferences prefs !! c with
        | Some v => boost + v * (3 # 10)
        | None => boost
        end
    | None => boost
    end in
  let boost :=
    match rd_title recipe_row with
    | Some t => if py_in t (liked_recipes prefs) then boost + (1 # 2) else boost
    | None => boost
    end in
  let boost :=
    match rd_title recipe_row with
    | Some t => if py_in t (disliked_recipes prefs) then boost - 1 else boost
    | None => boost
    end in
  let recent_feedback := _get_recent_feedback now 30 prefs in
  let boost :=
    match recent_feedback with
    | [] => boost
    | _ =>
        let recent_likes :=
          List.filter (fun f => bool_decide (4 ≤ fb_rating f)%Z)
            recent_feedback in
        fold_left
          (fun b like =>
             if bool_decide (fb_cuisine like = cuisine
                             ∧ fb_meal_time like = rd_meal_time recipe_row)
             then b + (1 # 10) else b)
          recent_likes boost
    end in
  Qmax (-1) (Qmin 1 boost).

(** [get_personalized_boost]: [0.0] when the session has no profile. *)
Definition get_personalized_boost (now : Z) (session : option Profile)
  (recipe_row : RecipeData) : Q :=
  match session with
  | None => 0
  | Some prefs => personalized_boost now prefs recipe_row
  end.

(** A [recordFeedback] call, and a sequence of them applied in order. *)
Record Call := mkCall {
  c_now : Z;
  c_title : string;
  c_rating : Z;
  c_tags : list string;
  c_recipe : RecipeData }.

Definition record (c : Call) (prefs : Profile) : Profile :=
  add_feedback (c_now c) (c_title c) (c_rating c) (c_tags c) (c_recipe c) prefs.

Definition record_all (calls : list Call) (prefs : Profile) : Profile :=
  fold_left (fun p c => record c p) calls prefs.


(** *** Predicates on profiles *)

(** The titles of a profile are well kept when neither list repeats a
    title and no title is in both. *)
Record apart (p : Profile) : Prop := mkApart {
  apart_liked : NoDup (liked_recipes p);
  apart_disliked : NoDup (disliked_recipes p);
  apart_disjoint :
    ∀ t, t ∈ liked_recipes p → t ∈ disliked_recipes p → False }.

(** Every stored affinity lies in [-1, 1]. *)
Definition bounded (m : gmap string Q) : Prop :=
  map_Forall (λ _ v, -1 <= v ∧ v <= 1) m.

(** *** Sample data *)

(** The recipe of the specification's scenario. *)
Definition karahi : RecipeData :=
  {| rd_title := None; rd_cuisine := Some "Desi";
     rd_meal_time := Some "Dinner"; rd_cook_time := Some 30%Z |}.

Definition dislike_karahi : Call :=
  {| c_now := 10; c_title := "Chicken Karahi"; c_rating := 1;
     c_tags := ["stress"]; c_recipe := karahi |}.

Definition like_karahi : Call :=
  {| c_now := 20; c_title := "Chicken Karahi"; c_rating := 5;
     c_tags := ["comfort"]; c_recipe := karahi |}.

Definition like_mystery_dish : Call :=
  {| c_now := 30; c_title := "Mystery Dish"; c_rating := 5;
     c_tags := ["comfort"];
     c_recipe := {| rd_title := None; rd_cuisine := Some "Unknown";
                    rd_meal_time := Some "Lunch"; rd_cook_time := Some 20%Z |} |}.

(** The row of the scenario, as [get_personalized_boost] receives it. *)
Definition karahi_row : RecipeData :=
  {| rd_title := Some "Chicken Karahi"; rd_cuisine := Some "Desi";
     rd_meal_time := Some "Dinner"; rd_cook_time := None |}.

(** A profile as [load_profile] may install it: the saved
    [cuisine_preferences] replace the default ones. *)
Definition loaded_profile : Profile :=
  {| liked_recipes := [];
     disliked_recipes := [];
     cuisine_preferences :=
       <["Desi" := -3]> (<["Arabic" := 5]> (<["Western" := 0]> ∅));
     mood_patterns := ∅;
     feedback_history := [];
     creation_date := Some 0%Z;
     last_updated := Some 0%Z |}.

End UserProfile.

(** ** Recipe frames ([pandas.DataFrame]) *)

(** A row of the recipe frame.  The first six fields are the catalog
    columns; [similarity], [cuisine_boost] and [final_score] are the
    columns the code may add, and a row's value for one of them is
    meaningful only when the frame lists the column. *)
Record Row := mkRow {
  title : string;
  description : string;
  cuisine : string;
  diet : string;
  meal_time : string;
  cook_time : Z;
  similarity : Q;
  cuisine_boost : Q;
  final_score : Q }.

Record DataFrame := mkFrame {
  columns : list string;
  rows : list Row }.

(** The columns of [data/recipes.csv]. *)
Definition catalog_columns : list string :=
  ["title"; "description"; "diet"; "meal_time"; "cook_time"; "cuisine"].

(** [name in df.columns] *)
Definition has_column (name : string) (df : DataFrame) : bool :=
  py_in name (columns df).

(** [df[name] = ...] on the column index: a new column is appended. *)
Definition add_column (name : string) (cols : list string) : list string :=
  append_if_absent name cols.

(** [df.empty] *)
Definition frame_empty (df : DataFrame) : bool :=
  match rows df with [] => true | _ => false end.

(** ** Filters ([utils/filters.py]) *)

Module Filters.

(** ASCII lower-casing, for [str.lower]. *)
Definition lower_ascii (c : ascii) : ascii :=
  let n := nat_of_ascii c in
  if ((65 <=? n) && (n <=? 90))%nat then ascii_of_nat (n + 32) else c.

Fixpoint lower (s : string) : string :=
  match s with
  | EmptyString => EmptyString
  | String c s' => String (lower_ascii c) (lower s')
  end.

(** [filter_recipes] *)
Definition filter_recipes (df : DataFrame) (diet_ meal_time_ : string)
  (cook_time_ : Z) : DataFrame :=
  let filtered := rows df in
  let filtered :=
    if bool_decide (diet_ ≠ "Any")
    then List.filter (fun r => bool_decide (lower (diet r) = lower diet_)) filtered
    else filtered in
  let filtered :=
    List.filter (fun r => bool_decide (lower (meal_time r) = lower meal_time_))
      filtered in
  let filtered :=
    List.filter (fun r => bool_decide (cook_time r ≤ cook_time_)%Z) filtered in
  {| columns := columns df; rows := filtered |}.

Definition set_cuisine_boost (b : Q) (r : Row) : Row :=
  {| title := title r; description := description r; cuisine := cuisine r;
     diet := diet r; meal_time := meal_time r; cook_time := cook_time r;
     similarity := similarity r; cuisine_boost := b;
     final_score := final_score r |}.

(** [filter_with_preferences].  [user_preferences.get(k)] is falsy for an
    empty list or dict. *)
Definition filter_with_preferences (df : DataFrame) (diet_ meal_time_ : string)
  (cook_time_ : Z) (user_preferences : option UserProfile.Profile)
  : DataFrame :=
  let filtered := filter_recipes df diet_ meal_time_ cook_time_ in
  match user_preferences with
  | None => filtered
  | Some prefs =>
      let kept :=
        match UserProfile.disliked_recipes prefs with
        | [] => rows filtered
        | disliked =>
            List.filter (fun r => negb (py_in (title r) disliked))
              (rows filtered)
        end in
      let cuisine_prefs := UserProfile.cuisine_preferences prefs in
      let boosted :=
        if bool_decide (cuisine_prefs = ∅)
        then List.map (set_cuisine_boost 0) kept
        else List.map
               (fun r =>
                  set_cuisine_boost (default 0 (cuisine_prefs !! cuisine r)) r)
               kept in
      {| columns := add_column "cuisine_boost" (columns filtered);
         rows := boosted |}
  end.

(** The loop of [apply_diversity_filter]: [diverse_recs] is kept in
    admission order, [cuisine_count] is the dict of running counts.  The
    [break] is tested at the end of each round. *)
Fixpoint diversity_loop (max_same_cuisine : Z) (recs : list Row)
  (diverse_recs : list Row) (cuisine_count : gmap string Z) : list Row :=
  match recs with
  | [] => diverse_recs
  | recipe :: rest =>
      let count := default 0%Z (cuisine_count !! cuisine recipe) in
      let '(diverse_recs, cuisine_count) :=
        if decide (count < max_same_cuisine)%Z
        then (diverse_recs ++ [recipe],
              <[cuisine recipe := (count + 1)%Z]> cuisine_count)
        else (diverse_recs, cuisine_count) in
      if decide (3 ≤ length diverse_recs)%nat then diverse_recs
      else diversity_loop max_same_cuisine rest diverse_recs cuisine_count
  end.

(** [apply_diversity_filter] on the rows of the frame. *)
Definition apply_diversity_filter (recommendations : list Row)
  (max_same_cuisine : Z) : list Row :=
  if decide (Z.of_nat (length recommendations) ≤ max_same_cuisine)%Z
  then recommendations
  else diversity_loop max_same_cuisine recommendations [] ∅.

(** *** The diversity filter as the specification words it *)

(** The running count of a cuisine: how many admitted candidates have it. *)
Definition running_count (cu : string) (admitted : list Row) : Z :=
  Z.of_nat (length (List.filter (fun r => bool_decide (cuisine r = cu)) admitted)).

(** "Walk the ranked sequence in order; maintain a per-cuisine running
    count; admit a candidate only if its cuisine's running count is below
    [maxSameCuisine]; stop once [maxResults] admitted or input exhausted." *)
Fixpoint walk (maxSameCuisine : Z) (maxResults : nat) (admitted : list Row)
  (ranked : list Row) : list Row :=
  match ranked with
  | [] => admitted
  | candidate :: rest =>
      if decide (maxResults ≤ length admitted)%nat then admitted
      else if decide (running_count (cuisine candidate) admitted < maxSameCuisine)%Z
           then walk maxSameCuisine maxResults (admitted ++ [candidate]) rest
           else walk maxSameCuisine maxResults admitted rest
  end.

(** "If the input length is already ≤ [maxSameCuisine], return the input
    unchanged." *)
Definition applyDiversity (rankedCandidates : list Row) (maxSameCuisine : Z)
  (maxResults : nat) : list Row :=
  if decide (Z.of_nat (length rankedCandidates) ≤ maxSameCuisine)%Z
  then rankedCandidates
  else walk maxSameCuisine maxResults [] rankedCandidates.

(** The dict [cuisine_count] holds the running counts of [diverse_recs]. *)
Definition counts_agree (cuisine_count : gmap string Z) (admitted : list Row)
  : Prop :=
  ∀ cu, default 0%Z (cuisine_count !! cu) = running_count cu admitted.

(** A frame row with only the columns the filter reads. *)
Definition dish (title_ cuisine_ : string) (similarity_ : Q) : Row :=
  {| title := title_; description := ""; cuisine := cuisine_; diet := "Halal";
     meal_time := "Dinner"; cook_time := 30; similarity := similarity_;
     cuisine_boost := 0; final_score := 0 |}.

End Filters.

(** ** Mood analysis ([utils/mood_analyzer.py]) *)

Module MoodAnalyzer.

(** [self.emotion_keywords], in definition order. *)
Definition emotion_keywords : list (string * list string) :=
  [ ("stress", ["stressed"; "overwhelmed"; "anxious"; "tense"; "pressure";
                "frazzled"; "hectic"]);
    ("comfort", ["sad"; "lonely"; "homesick"; "tired"; "exhausted"; "down";
                 "blue"; "melancholy"]);
    ("energy", ["energetic"; "excited"; "happy"; "motivated"; "pumped";
                "enthusiastic"; "vibrant"]);
    ("calm", ["peaceful"; "relaxed"; "zen"; "meditative"; "serene";
              "tranquil"; "chill"]);
    ("social", ["celebratory"; "party"; "friends"; "family"; "gathering";
                "festive"]);
    ("indulgent", ["craving"; "treat"; "indulgent"; "guilty pleasure";
                   "comfort food"]);
    ("healthy", ["fresh"; "light"; "clean"; "detox"; "healthy"; "nutritious"]);
    ("quick", ["rushed"; "hurry"; "quick"; "fast"; "busy"; "no time"]);
    ("cozy", ["cozy"; "warm"; "comforting"; "snuggled"; "homey"; "intimate"]) ].

(** [self.intensity_words], in definition order. *)
Definition intensity_words : list (string * Q) :=
  [ ("very", 15 # 10); ("extremely", 2); ("super", 17 # 10);
    ("really", 13 # 10); ("quite", 12 # 10); ("pretty", 11 # 10);
    ("somewhat", 8 # 10); ("slightly", 7 # 10); ("a bit", 8 # 10);
    ("a little", 7 # 10); ("totally", 18 # 10); ("completely", 2) ].

(** [a < b] on floats, as a test. *)
Definition Qltb (a b : Q) : bool := negb (Qle_bool b a).

(** [text.find(keyword)]: [None] stands for [-1]. *)
Definition find (keyword text : string) : option nat :=
  String.index 0 keyword text.

(** [sub] occurs in [s]: some position of [s] starts a copy of [sub]. *)
Definition occurs_in (sub s : string) : Prop :=
  ∃ n : nat, String.substring n (String.length sub) s = sub.

(** [keyword in text] on strings. *)
Definition contains (keyword text : string) : bool :=
  match find keyword text with Some _ => true | None => false end.

(** [text[max(0, pos-20):pos]] *)
Definition before_keyword (text : string) (keyword_pos : nat) : string :=
  let start := (keyword_pos - 20)%nat in
  String.substring start (keyword_pos - start) text.

(** The modifier loop of [_get_keyword_intensity] over a modifier table,
    from a starting intensity. *)
Definition strongest_modifier_from (table : list (string * Q))
  (before_text : string) (start : Q) : Q :=
  fold_left
    (fun intensity entry =>
       let '(modifier, multiplier) := entry in
       if contains modifier before_text then Qmax intensity multiplier
       else intensity)
    table start.

(** [intensity = 1.0] followed by the loop. *)
Definition strongest_modifier (table : list (string * Q)) (before_text : string)
  : Q :=
  strongest_modifier_from table before_text 1.

(** [_get_keyword_intensity], with the modifier table as a parameter. *)
Definition keyword_intensity_with (table : list (string * Q))
  (text keyword : string) : Q :=
  match find keyword text with
  | None => 1
  | Some keyword_pos => strongest_modifier table (before_keyword text keyword_pos)
  end.

Definition _get_keyword_intensity (text keyword : string) : Q :=
  keyword_intensity_with intensity_words text keyword.

(** The entries of [intensity_words] whose multiplier exceeds 1. *)
Definition amplifying_words : list (string * Q) :=
  List.filter (fun entry => Qltb 1 (snd entry)) intensity_words.

(** The inner loop [for keyword in keywords]: the pair
    ([category_score], [matches]). *)
Definition scan_keywords (mood_text_lower : string) (keywords : list string)
  : Q * nat :=
  fold_left
    (fun acc keyword =>
       let '(category_score, matches) := acc in
       if contains keyword mood_text_lower
       then (category_score + _get_keyword_intensity mood_text_lower keyword,
             S matches)
       else acc)
    keywords (0, 0%nat).

(** The outer loop [for category, keywords in ...]: the pair
    ([detected_tags], [tag_scores]). *)
Definition scan_categories (mood_text_lower : string)
  : list string * list (string * Q) :=
  fold_left
    (fun acc entry =>
       let '(detected_tags, tag_scores) := acc in
       let '(category, keywords) := entry in
       let '(category_score, matches) := scan_keywords mood_text_lower keywords in
       if decide (0 < matches)%nat
       then (detected_tags ++ [category],
             tag_scores
               ++ [(category, category_score / inject_Z (Z.of_nat (max matches 1)))])
       else acc)
    emotion_keywords ([], []).

(** The category tags alone. *)
Definition category_tags (mood_text_lower : string) : list string :=
  fst (scan_categories mood_text_lower).

(** The [if]/[elif]/[elif] on the sentiment: the tags it appends. *)
Definition sentiment_tags (sentiment : Q) : list string :=
  if Qltb sentiment (-4 # 10) then ["negative"]
  else if Qltb (4 # 10) sentiment then ["positive"]
  else if Qle_bool (-2 # 10) sentiment && Qle_bool sentiment (2 # 10)
       then ["neutral"]
  else [].

(** The duplicate-removing loop: [seen] is the set of tags already kept. *)
Fixpoint unique_from (seen : gset string) (tags : list string) : list string :=
  match tags with
  | [] => []
  | tag :: rest =>
      if decide (tag ∈ seen) then unique_from seen rest
      else tag :: unique_from ({[tag]} ∪ seen) rest
  end.

Section WithSentiment.

(** [TextBlob(text).sentiment.polarity], an external estimator. *)
Variable polarity : string -> Q.

(** [detected_tags] as it stands after the sentiment step, before
    duplicates are removed. *)
Definition detected_tags (mood_text : string) : list string :=
  category_tags (Filters.lower mood_text) ++ sentiment_tags (polarity mood_text).

(** [extract_mood_tags] *)
Definition extract_mood_tags (mood_text : string) : list string * Q :=
  if decide (mood_text = "") then ([], 0)
  else
    let unique_tags := unique_from ∅ (detected_tags mood_text) in
    (take 5 unique_tags, polarity mood_text).

End WithSentiment.

End MoodAnalyzer.

(** ** Embeddings ([model/embedder.py]) *)

(** [d.get(key, default)] on a table written as a literal. *)
Fixpoint dict_get {V} (table : list (string * V)) (key : string) (default : V) : V :=
  match table with
  | [] => default
  | (k, v) :: rest => if decide (key = k) then v else dict_get rest key default
  end.

Module Embedder.

(** [self.cuisine_weights] *)
Definition cuisine_weights : list (string * list Q) :=
  [ ("Desi", [8 # 10; 6 # 10; 9 # 10]);
    ("Arabic", [7 # 10; 5 # 10; 8 # 10]);
    ("Western", [5 # 10; 3 # 10; 6 # 10]) ].

(** [self.time_weights] *)
Definition time_weights : list (string * list Q) :=
  [ ("Breakfast", [6 # 10; 8 # 10; 4 # 10]);
    ("Lunch", [7 # 10; 6 # 10; 8 # 10]);
    ("Dinner", [9 # 10; 4 # 10; 7 # 10]) ].

(** [array * w] *)
Definition scale (w : Q) (v : list Q) : list Q := List.map (fun x => x * w) v.

Section WithModel.

(** [get_embedding]: the sentence-embedding model behind an LRU cache. *)
Variable get_embedding : string -> list Q.

(** [get_enhanced_embedding] *)
Definition get_enhanced_embedding (description_ cuisine_ meal_time_ : string)
  (cook_time_ : Z) : list Q :=
  let text_emb := get_embedding description_ in
  let cuisine_emb := dict_get cuisine_weights cuisine_ [5 # 10; 5 # 10; 5 # 10] in
  let time_emb := dict_get time_weights meal_time_ [5 # 10; 5 # 10; 5 # 10] in
  let time_factor := Qmin (inject_Z cook_time_ / 60) 1 in
  scale (7 # 10) text_emb
    ++ scale (2 # 10) cuisine_emb
    ++ scale (1 # 10) time_emb
    ++ [time_factor * (1 # 10)].

End WithModel.

(** *** The composition as the specification words it *)

(** The neutral vector of unknown keys. *)
Definition neutral : list Q := [5 # 10; 5 # 10; 5 # 10].

(** [cuisineVector], a three-entry table with the neutral default. *)
Definition cuisineVector (cuisine_ : string) : list Q :=
  if decide (cuisine_ = "Desi") then [8 # 10; 6 # 10; 9 # 10]
  else if decide (cuisine_ = "Arabic") then [7 # 10; 5 # 10; 8 # 10]
  else if decide (cuisine_ = "Western") then [5 # 10; 3 # 10; 6 # 10]
  else neutral.

(** [timeVector], likewise. *)
Definition timeVector (meal_time_ : string) : list Q :=
  if decide (meal_time_ = "Breakfast") then [6 # 10; 8 # 10; 4 # 10]
  else if decide (meal_time_ = "Lunch") then [7 # 10; 6 # 10; 8 # 10]
  else if decide (meal_time_ = "Dinner") then [9 # 10; 4 # 10; 7 # 10]
  else neutral.

(** [w·v] *)
Definition weighted (w : Q) (v : list Q) : list Q := List.map (Qmult w) v.

End Embedder.

(** ** The recommendation block ([app.py]) *)

Module App.

(** The exceptions the block can raise. *)
Inductive exn := IndexError | ValueError.

Inductive result (A : Type) :=
  | Ok (a : A)
  | Raise (e : exn).
Arguments Ok {A} a.
Arguments Raise {A} e.

#[export] Instance result_bind : MBind result :=
  fun A B (k : A -> result B) (m : result A) =>
    match m with
    | Ok a => k a
    | Raise e => Raise e
    end.

(** What the user is shown. *)
Inductive Outcome :=
  | MoodMissing
      (* st.warning("Please describe your mood first.") *)
  | NoMatchingMeals (mood_tags : list string) (sentiment : Q)
      (* st.error("No matching meals found. ...") *)
  | Recommendations (mood_tags : list string) (sentiment : Q)
      (sort_column : string) (top_matches : list Row).

(** ASCII white space, for [str.strip]. *)
Definition is_space (c : ascii) : bool :=
  let n := nat_of_ascii c in
  (((9 <=? n) && (n <=? 13)) || ((28 <=? n) && (n <=? 32)))%nat.

Fixpoint all_space (s : string) : bool :=
  match s with
  | EmptyString => true
  | String c s' => is_space c && all_space s'
  end.

(** [mood.strip() == ""] *)
Definition is_blank (mood : string) : bool := all_space mood.

(** [np.zeros(n)]: a negative length is a [ValueError]. *)
Definition np_zeros (n : Z) : result (list Q) :=
  if decide (n < 0)%Z then Raise ValueError
  else Ok (replicate (Z.to_nat n) 0).

(** The cuisine selector (lines 98-100). *)
Definition filter_by_cuisine (df : DataFrame) (choice : string) : DataFrame :=
  if bool_decide (choice ≠ "All")
  then {| columns := columns df;
          rows := List.filter (fun r => bool_decide (cuisine r = choice)) (rows df) |}
  else df.

Definition set_similarity (s : Q) (r : Row) : Row :=
  {| title := title r; description := description r; cuisine := cuisine r;
     diet := diet r; meal_time := meal_time r; cook_time := cook_time r;
     similarity := s; cuisine_boost := cuisine_boost r;
     final_score := final_score r |}.

Definition set_final_score (s : Q) (r : Row) : Row :=
  {| title := title r; description := description r; cuisine := cuisine r;
     diet := diet r; meal_time := meal_time r; cook_time := cook_time r;
     similarity := similarity r; cuisine_boost := cuisine_boost r;
     final_score := s |}.

(** [filtered_df["similarity"] = similarities] *)
Fixpoint assign_similarity (rs : list Row) (similarities : list Q) : list Row :=
  match rs, similarities with
  | r :: rs', s :: ss' => set_similarity s r :: assign_similarity rs' ss'
  | _, _ => []
  end.

(** The value of a row in the column the frame is sorted by. *)
Definition sort_key (sort_column : string) (r : Row) : Q :=
  if decide (sort_column = "final_score") then final_score r else similarity r.

(** [sort_values(by=..., ascending=False)], as an insertion sort that keeps
    rows of equal key in frame order. *)
Fixpoint insert_desc (key : Row -> Q) (r : Row) (sorted : list Row) : list Row :=
  match sorted with
  | [] => [r]
  | x :: rest =>
      if Qle_bool (key x) (key r) then r :: x :: rest
      else x :: insert_desc key r rest
  end.

Definition sort_values (key : Row -> Q) (rs : list Row) : list Row :=
  foldr (insert_desc key) [] rs.

Section Pipeline.

(** [TextBlob(text).sentiment.polarity] *)
Variable polarity : string -> Q.
(** [get_embedding] *)
Variable get_embedding : string -> list Q.
(** The cosine of two vectors, as scikit-learn computes each entry of
    [cosine_similarity]. *)
Variable cosine : list Q -> list Q -> Q.

(** [cosine_similarity([mood_embedding], recipe_embeddings)[0]].
    scikit-learn validates its arguments first: an empty list of recipe
    vectors is not a two-dimensional array and is refused with a
    [ValueError]. *)
Definition cosine_similarity (mood_embedding : list Q)
  (recipe_embeddings : list (list Q)) : result (list Q) :=
  match recipe_embeddings with
  | [] => Raise ValueError
  | _ => Ok (List.map (cosine mood_embedding) recipe_embeddings)
  end.

(** The [if use_enhanced_embeddings: ... else: ...] of lines 117-137:
    the recipe vectors and the mood vector. *)
Definition embeddings (use_enhanced_embeddings : bool) (mood : string)
  (filtered_df : DataFrame) : result (list (list Q) * list Q) :=
  if use_enhanced_embeddings then
    let recipe_embeddings :=
      List.map
        (fun recipe =>
           Embedder.get_enhanced_embedding get_embedding
             (description recipe) (cuisine recipe) (meal_time recipe)
             (cook_time recipe))
        (rows filtered_df) in
    let mood_embedding := get_embedding mood in
    match recipe_embeddings with
    | [] => Raise IndexError (* recipe_embeddings[0] *)
    | first :: _ =>
        let emb_len := length first in
        zeros ← np_zeros (Z.of_nat emb_len - Z.of_nat (length mood_embedding));
        Ok (recipe_embeddings, mood_embedding ++ zeros)
    end
  else
    Ok (List.map (fun r => get_embedding (description r)) (rows filtered_df),
        get_embedding mood).

(** Lines 144-157: the scoring and the selection of the top matches.
    [user_prefs] is computed and not used: [final_filtered] is the frame
    itself. *)
Definition rank (enable_learning : bool)
  (user_preferences : UserProfile.Profile) (filtered_df : DataFrame)
  : string * list Row :=
  let user_prefs := if enable_learning then Some user_preferences else None in
  let final_filtered := filtered_df in
  let '(final_filtered, sort_column) :=
    if enable_learning && has_column "cuisine_boost" final_filtered
    then ({| columns := add_column "final_score" (columns final_filtered);
             rows := List.map
                       (fun r => set_final_score (similarity r + cuisine_boost r) r)
                       (rows final_filtered) |},
          "final_score")
    else (final_filtered, "similarity") in
  let top_matches :=
    take 6 (sort_values (sort_key sort_column) (rows final_filtered)) in
  (sort_column, Filters.apply_diversity_filter top_matches 2).

(** The body of the [Recommend] button (lines 104-160), started on the
    catalog [df] with the form values. *)
Definition recommend (df : DataFrame) (mood cuisine_choice : string)
  (use_enhanced_embeddings enable_learning : bool)
  (user_preferences : UserProfile.Profile) : result Outcome :=
  let filtered_df := filter_by_cuisine df cuisine_choice in
  if is_blank mood then Ok MoodMissing
  else
    let '(mood_tags, sentiment) :=
      MoodAnalyzer.extract_mood_tags polarity mood in
    '(recipe_embeddings, mood_embedding) ←
       embeddings use_enhanced_embeddings mood filtered_df;
    similarities ← cosine_similarity mood_embedding recipe_embeddings;
    let filtered_df :=
      {| columns := add_column "similarity" (columns filtered_df);
         rows := assign_similarity (rows filtered_df) similarities |} in
    let '(sort_column, top_matches) :=
      rank enable_learning user_preferences filtered_df in
    match top_matches with
    | [] => Ok (NoMatchingMeals mood_tags sentiment)
    | _ => Ok (Recommendations mood_tags sentiment sort_column top_matches)
    end.

End Pipeline.

(** *** Sample data *)

(** A two-recipe catalog. *)
Definition grilled_cheese : Row :=
  {| title := "Grilled Cheese"; description := "melted cheese sandwich";
     cuisine := "Western"; diet := "Vegetarian"; meal_time := "Dinner";
     cook_time := 15; similarity := 0; cuisine_boost := 0; final_score := 0 |}.

Definition chicken_karahi : Row :=
  {| title := "Chicken Karahi"; description := "spicy chicken curry";
     cuisine := "Desi"; diet := "Halal"; meal_time := "Dinner";
     cook_time := 30; similarity := 0; cuisine_boost := 0; final_score := 0 |}.

Definition sample_catalog : DataFrame :=
  {| columns := catalog_columns; rows := [grilled_cheese; chicken_karahi] |}.

Definition empty_catalog : DataFrame :=
  {| columns := catalog_columns; rows := [] |}.

(** Stand-ins for the external models: one-component vectors and a
    similarity that reads the recipe's component, so that the mood is at
    0.4 from the grilled cheese and at 0.3 from the karahi. *)
Definition sample_embedding (text : string) : list Q :=
  if decide (text = "melted cheese sandwich") then [4 # 10]
  else if decide (text = "spicy chicken curry") then [3 # 10]
  else [1].

Definition sample_cosine (mood_embedding recipe_embedding : list Q) : Q :=
  hd 0 recipe_embedding.

Definition sample_polarity (text : string) : Q := 0.

(** A profile that has learnt a Desi affinity of 0.5. *)
Definition desi_fan : UserProfile.Profile :=
  {| UserProfile.liked_recipes := ["Chicken Karahi"];
     UserProfile.disliked_recipes := [];
     UserProfile.cuisine_preferences :=
       <["Desi" := 5 # 10]> (<["Arabic" := 0]> (<["Western" := 0]> ∅));
     UserProfile.mood_patterns := ∅;
     UserProfile.feedback_history := [];
     UserProfile.creation_date := Some 0%Z;
     UserProfile.last_updated := Some 0%Z |}.

(** The final score the specification gives a scored row under a profile:
    similarity plus the stored affinity of the row's cuisine. *)
Definition boosted_score (prefs : UserProfile.Profile) (r : Row) : Q :=
  similarity r + default 0 (UserProfile.cuisine_preferences prefs !! cuisine r).

End App.

(** ** The profile in the session ([utils/user_profile.py], continued) *)

Module Session.
Import UserProfile.

(** [initialize_profile] on the session: a profile already there is kept. *)
Definition initialize_session (now : Z) (session : option Profile)
  : option Profile :=
  match session with
  | Some prefs => Some prefs
  | None => Some (initialize_profile now)
  end.

(** [reset_profile]: the profile is deleted and initialised again (the
    saved file is removed as well). *)
Definition reset_profile (now : Z) (session : option Profile) : option Profile :=
  initialize_session now None.

(** The record [add_feedback] appends to the history. *)
Definition feedback_record (now : Z) (recipe_title : string) (rating : Z)
  (mood_tags : list string) (recipe_data : RecipeData) : Feedback :=
  {| fb_recipe_title := recipe_title;
     fb_rating := rating;
     fb_mood_tags := mood_tags;
     fb_timestamp := Some now;
     fb_cuisine := rd_cuisine recipe_data;
     fb_meal_time := rd_meal_time recipe_data;
     fb_cook_time := rd_cook_time recipe_data |}.

(** Every list of [mood_patterns] is free of duplicates. *)
Definition patterns_distinct (m : gmap string (list string)) : Prop :=
  ∀ tag titles, m !! tag = Some titles → NoDup titles.

End Session.

(** ** The mood summary ([utils/mood_analyzer.py], continued) *)

Module MoodSummary.
Import MoodAnalyzer.

(** The [if]/[elif]/[else] of [get_mood_summary] on the sentiment. *)
Definition sentiment_desc (sentiment : Q) : string :=
  if Qltb (3 # 10) sentiment then "positive"
  else if Qltb sentiment (-3 # 10) then "challenging"
  else "balanced".

(** [get_mood_summary]; [mood_tags[1:3]] is [take 2 (drop 1 mood_tags)]. *)
Definition get_mood_summary (mood_tags : list string) (sentiment : Q) : string :=
  match mood_tags with
  | [] => "Neutral mood"
  | primary :: _ =>
      if decide (length mood_tags = 1%nat)
      then "Feeling " +:+ primary +:+ " with a " +:+ sentiment_desc sentiment
           +:+ " outlook"
      else
        let secondary := String.concat ", " (take 2 (drop 1 mood_tags)) in
        "Primarily " +:+ primary +:+ ", also " +:+ secondary +:+ " - overall "
        +:+ sentiment_desc sentiment
  end.

End MoodSummary.

(** ** The feedback buttons ([app.py], lines 209-243) *)

Module Buttons.
Import UserProfile.

(** What a click can raise. *)
Inductive click_exn := RowIndexError | CuisineKeyError.

(** [df[df['title'] == recipe].iloc[0]] *)
Definition first_row_titled (df : DataFrame) (recipe : string) : option Row :=
  List.find (fun r => bool_decide (title r = recipe)) (rows df).

(** One round of [for tag in last_mood_tags]: the title is appended
    without a membership test. *)
Definition remember_tag (recipe : string) (m : gmap string (list string))
  (tag : string) : gmap string (list string) :=
  let m1 := match m !! tag with Some _ => m | None => <[tag := []]> m end in
  <[tag := default [] (m1 !! tag) ++ [recipe]]> m1.

Definition with_liked (liked : list string) (prefs : Profile) : Profile :=
  {| liked_recipes := liked;
     disliked_recipes := disliked_recipes prefs;
     cuisine_preferences := cuisine_preferences prefs;
     mood_patterns := mood_patterns prefs;
     feedback_history := feedback_history prefs;
     creation_date := creation_date prefs;
     last_updated := last_updated prefs |}.

(** The "Loved" button: the profile it leaves and the exception it ends
    with, if any.  The title is appended before the catalog row and the
    cuisine entry are read. *)
Definition love_button (df : DataFrame) (last_mood_tags : list string)
  (recipe : string) (prefs : Profile) : Profile * option click_exn :=
  if py_in recipe (liked_recipes prefs) then (prefs, None)
  else
    let prefs := with_liked (liked_recipes prefs ++ [recipe]) prefs in
    match first_row_titled df recipe with
    | None => (prefs, Some RowIndexError)
    | Some recipe_row =>
        match cuisine_preferences prefs !! cuisine recipe_row with
        | None => (prefs, Some CuisineKeyError)
        | Some current =>
            ({| liked_recipes := liked_recipes prefs;
                disliked_recipes := disliked_recipes prefs;
                cuisine_preferences :=
                  <[cuisine recipe_row := current + (1 # 10)]>
                    (cuisine_preferences prefs);
                mood_patterns :=
                  fold_left (remember_tag recipe) last_mood_tags
                    (mood_patterns prefs);
                feedback_history := feedback_history prefs;
                creation_date := creation_date prefs;
                last_updated := last_updated prefs |},
             None)
        end
    end.

(** The "Didn't like" button. *)
Definition dislike_button (recipe : string) (prefs : Profile) : Profile :=
  if py_in recipe (disliked_recipes prefs) then prefs
  else
    {| liked_recipes := liked_recipes prefs;
       disliked_recipes := disliked_recipes prefs ++ [recipe];
       cuisine_preferences := cuisine_preferences prefs;
       mood_patterns := mood_patterns prefs;
       feedback_history := feedback_history prefs;
       creation_date := creation_date prefs;
       last_updated := last_updated prefs |}.

(** A catalog row of unknown cuisine, as [load_data] fills it in. *)
Definition mystery_dish : Row :=
  {| title := "Mystery Dish"; description := ""; cuisine := "Unknown";
     diet := "Halal"; meal_time := "Lunch"; cook_time := 20;
     similarity := 0; cuisine_boost := 0; final_score := 0 |}.

End Buttons.

(** * Properties *)

(** ** Python list helpers *)

Lemma py_in_true (x : string) (l : list string) : py_in x l = true ↔ x ∈ l.
Proof. unfold py_in. apply bool_decide_eq_true. Qed.

Lemma py_in_false (x : string) (l : list string) : py_in x l = false ↔ x ∉ l.
Proof. unfold py_in. apply bool_decide_eq_false. Qed.

Lemma elem_of_py_remove (x y : string) (l : list string) :
  y ∈ py_remove x l → y ∈ l.
Proof.
  induction l as [|z l IH]; simpl; [done|].
  destruct (decide (x = z)) as [->|Hne].
  - intros Hy. by apply elem_of_cons; right.
  - rewrite !elem_of_cons. intros [->|Hy]; [by left|right; auto].
Qed.

Lemma NoDup_py_remove (x : string) (l : list string) :
  NoDup l → NoDup (py_remove x l).
Proof.
  induction 1 as [|z l Hz Hl IH]; simpl; [constructor|].
  destruct (decide (x = z)); [done|].
  constructor; [|done].
  intros Hin. apply Hz. by eapply elem_of_py_remove.
Qed.

(** With no duplicates, removing the first occurrence removes them all. *)
Lemma not_elem_of_py_remove (x : string) (l : list string) :
  NoDup l → x ∉ py_remove x l.
Proof.
  induction 1 as [|z l Hz Hl IH]; simpl; [by inversion 1|].
  destruct (decide (x = z)) as [->|Hne]; [done|].
  rewrite elem_of_cons. intros [?|?]; [done|by apply IH].
Qed.

Lemma elem_of_append_if_absent (x y : string) (l : list string) :
  y ∈ append_if_absent x l ↔ y = x ∨ y ∈ l.
Proof.
  unfold append_if_absent. destruct (py_in x l) eqn:Hx.
  - apply py_in_true in Hx. split; [by right|]. intros [->|?]; done.
  - rewrite elem_of_app, list_elem_of_singleton. tauto.
Qed.

Lemma NoDup_append_if_absent (x : string) (l : list string) :
  NoDup l → NoDup (append_if_absent x l).
Proof.
  intros Hl. unfold append_if_absent. destruct (py_in x l) eqn:Hx; [done|].
  apply py_in_false in Hx. apply NoDup_app. split_and!; [done| |apply NoDup_singleton].
  intros y Hy. rewrite list_elem_of_singleton. by intros ->.
Qed.

Lemma elem_of_remove_if_present (x y : string) (l : list string) :
  y ∈ remove_if_present x l → y ∈ l.
Proof.
  unfold remove_if_present. destruct (py_in x l); [apply elem_of_py_remove|done].
Qed.

Lemma NoDup_remove_if_present (x : string) (l : list string) :
  NoDup l → NoDup (remove_if_present x l).
Proof.
  unfold remove_if_present. destruct (py_in x l); [apply NoDup_py_remove|done].
Qed.

Lemma not_elem_of_remove_if_present (x : string) (l : list string) :
  NoDup l → x ∉ remove_if_present x l.
Proof.
  intros Hl. unfold remove_if_present. destruct (py_in x l) eqn:Hx.
  - by apply not_elem_of_py_remove.
  - by apply py_in_false.
Qed.

(** ** The user profile *)

Module UserProfileFacts.
Import UserProfile.

Lemma apart_initialize (now : Z) : apart (initialize_profile now).
Proof. split; simpl; [constructor|constructor|]. intros t Ht. by inversion Ht. Qed.

Lemma apart_add_feedback now t r tags rd p :
  apart p → apart (add_feedback now t r tags rd p).
Proof.
  intros [Hl Hd Hx]. unfold add_feedback.
  destruct (decide (4 ≤ r)%Z); [|destruct (decide (r ≤ 2)%Z)]; split; simpl;
    auto using NoDup_append_if_absent, NoDup_remove_if_present.
  - intros u Hu Hu'. apply elem_of_append_if_absent in Hu as [->|Hu].
    + by apply (not_elem_of_remove_if_present t (disliked_recipes p)).
    + apply elem_of_remove_if_present in Hu'. eauto.
  - intros u Hu Hu'. apply elem_of_append_if_absent in Hu' as [->|Hu'].
    + by apply (not_elem_of_remove_if_present t (liked_recipes p)).
    + apply elem_of_remove_if_present in Hu. eauto.
Qed.

Lemma apart_record_all calls p : apart p → apart (record_all calls p).
Proof.
  revert p. induction calls as [|c calls IH]; intros p Hp; simpl; [done|].
  apply IH. by apply apart_add_feedback.
Qed.

(** C3. Starting from the default profile, after any sequence of
    [add_feedback] calls no title is both liked and disliked; a further
    call with a rating of 4 or more leaves its title out of
    [disliked_recipes], and one with a rating of 2 or less leaves it out of
    [liked_recipes]. *)
Theorem liked_and_disliked_stay_apart (t0 : Z) (calls : list Call) :
  let p := record_all calls (initialize_profile t0) in
  (∀ t, ¬ (t ∈ liked_recipes p ∧ t ∈ disliked_recipes p))
  ∧ (∀ c, (4 ≤ c_rating c)%Z →
          c_title c ∈ liked_recipes (record c p)
          ∧ c_title c ∉ disliked_recipes (record c p))
  ∧ (∀ c, (c_rating c ≤ 2)%Z →
          c_title c ∈ disliked_recipes (record c p)
          ∧ c_title c ∉ liked_recipes (record c p)).
Proof.
  intros p.
  assert (Hp : apart p) by apply apart_record_all, apart_initialize.
  destruct Hp as [Hl Hd Hx]. split_and!.
  - intros t [? ?]. eauto.
  - intros c Hc. unfold record, add_feedback.
    destruct (decide (4 ≤ c_rating c)%Z); [simpl|lia]. split.
    + apply elem_of_append_if_absent. by left.
    + by apply not_elem_of_remove_if_present.
  - intros c Hc. unfold record, add_feedback.
    destruct (decide (4 ≤ c_rating c)%Z); [lia|].
    destruct (decide (c_rating c ≤ 2)%Z); [simpl|lia]. split.
    + apply elem_of_append_if_absent. by left.
    + by apply not_elem_of_remove_if_present.
Qed.

Lemma liked_and_disliked_stay_apart_witness :
  ("Chicken Karahi" ∈ liked_recipes
      (record like_karahi (record_all [dislike_karahi] (initialize_profile 0)))
   ∧ "Chicken Karahi" ∉ disliked_recipes
      (record like_karahi (record_all [dislike_karahi] (initialize_profile 0))))
  ∧ ("Chicken Karahi" ∈ disliked_recipes
      (record dislike_karahi (record_all [like_karahi] (initialize_profile 0)))
   ∧ "Chicken Karahi" ∉ liked_recipes
      (record dislike_karahi (record_all [like_karahi] (initialize_profile 0)))).
Proof.
  split.
  - apply (proj1 (proj2 (liked_and_disliked_stay_apart 0 [dislike_karahi]))
             like_karahi).
    simpl. lia.
  - apply (proj2 (proj2 (liked_and_disliked_stay_apart 0 [like_karahi]))
             dislike_karahi).
    simpl. lia.
Defined.

(** *** Cuisine affinities *)

Lemma Qmin_clamp_bounds (v : Q) :
  -1 <= v → -1 <= Qmin 1 (v + Config.cuisine_boost) ∧ Qmin 1 (v + Config.cuisine_boost) <= 1.
Proof.
  intros Hv. split.
  - apply Q.min_glb; [done|]. unfold Config.cuisine_boost.
    apply Qle_trans with (v + 0); [by rewrite Qplus_0_r|].
    apply Qplus_le_r. done.
  - apply Q.le_min_l.
Qed.

Lemma Qmax_clamp_bounds (v : Q) :
  v <= 1 →
  -1 <= Qmax (-1 # 2) (v - Config.cuisine_boost * (1 # 2))
  ∧ Qmax (-1 # 2) (v - Config.cuisine_boost * (1 # 2)) <= 1.
Proof.
  intros Hv. split.
  - apply Qle_trans with (-1 # 2); [done|]. apply Q.le_max_l.
  - apply Q.max_lub; [done|]. unfold Config.cuisine_boost.
    apply Qle_trans with (v - 0); [|by unfold Qminus; rewrite Qplus_0_r].
    unfold Qminus. apply Qplus_le_r. done.
Qed.

Lemma bounded_raise_cuisine cu m : bounded m → bounded (raise_cuisine cu m).
Proof.
  intros Hm. unfold raise_cuisine. destruct cu as [c|]; [|done].
  destruct (m !! c) as [v|] eqn:Hc; [|done].
  apply map_Forall_insert_2; [|done].
  apply Qmin_clamp_bounds. by destruct (Hm c v Hc).
Qed.

Lemma bounded_lower_cuisine cu m : bounded m → bounded (lower_cuisine cu m).
Proof.
  intros Hm. unfold lower_cuisine. destruct cu as [c|]; [|done].
  destruct (m !! c) as [v|] eqn:Hc; [|done].
  apply map_Forall_insert_2; [|done].
  apply Qmax_clamp_bounds. by destruct (Hm c v Hc).
Qed.

Lemma bounded_record c p :
  bounded (cuisine_preferences p) → bounded (cuisine_preferences (record c p)).
Proof.
  intros Hp. unfold record, add_feedback.
  destruct (decide (4 ≤ c_rating c)%Z); [|destruct (decide (c_rating c ≤ 2)%Z)];
    simpl; auto using bounded_raise_cuisine, bounded_lower_cuisine.
Qed.

Lemma bounded_record_all calls p :
  bounded (cuisine_preferences p) →
  bounded (cuisine_preferences (record_all calls p)).
Proof.
  revert p. induction calls as [|c calls IH]; intros p Hp; simpl; [done|].
  apply IH. by apply bounded_record.
Qed.

(** C4, as stated, fails: on a loaded profile whose Desi affinity is -3
    and whose Arabic affinity is 5, a positive feedback for a Desi recipe
    leaves Desi at -2.9 and Arabic at 5, both outside [-1, 1]. *)
Lemma unbounded_start_stays_unbounded :
  let p := record like_karahi loaded_profile in
  cuisine_preferences p !! "Desi" = Some (-29 # 10)
  ∧ cuisine_preferences p !! "Arabic" = Some 5
  ∧ ¬ (-1 <= -29 # 10) ∧ ¬ (5 <= 1)
  ∧ ¬ bounded (cuisine_preferences p).
Proof.
  assert (H1 : cuisine_preferences (record like_karahi loaded_profile) !! "Desi"
               = Some (-29 # 10)) by (vm_compute; reflexivity).
  assert (H2 : cuisine_preferences (record like_karahi loaded_profile) !! "Arabic"
               = Some 5) by (vm_compute; reflexivity).
  assert (H3 : ¬ (-1 <= -29 # 10)) by (intros H; vm_compute in H; by apply H).
  assert (H4 : ¬ (5 <= 1)) by (intros H; vm_compute in H; by apply H).
  simpl. split_and!; try done.
  intros Hb. destruct (Hb _ _ H2) as [_ ?]. done.
Qed.

Lemma bounded_initialize (now : Z) :
  bounded (cuisine_preferences (initialize_profile now)).
Proof.
  simpl. repeat (apply map_Forall_insert_2; [done|]). apply map_Forall_empty.
Qed.

(** What one call does to the affinities, on any profile. *)
Lemma record_cuisine_update (c : Call) (p : Profile) (cu : string) (v : Q) :
  rd_cuisine (c_recipe c) = Some cu →
  cuisine_preferences p !! cu = Some v →
  cuisine_preferences (record c p)
  = if decide (4 ≤ c_rating c)%Z
    then <[cu := Qmin 1 (v + Config.cuisine_boost)]> (cuisine_preferences p)
    else if decide (c_rating c ≤ 2)%Z
    then <[cu := Qmax (-1 # 2) (v - Config.cuisine_boost * (1 # 2))]>
           (cuisine_preferences p)
    else cuisine_preferences p.
Proof.
  intros Hcu Hv. unfold record, add_feedback.
  destruct (decide (4 ≤ c_rating c)%Z); [|destruct (decide (c_rating c ≤ 2)%Z)];
    simpl; unfold raise_cuisine, lower_cuisine; by rewrite ?Hcu, ?Hv.
Qed.

(** C4, amended. On every profile, a positive feedback sets the affinity
    [v] of the recipe's cuisine to [min(1.0, v + 0.1)], which is at most
    1.0, a negative one sets it to [max(-0.5, v - 0.1 * 0.5)], which is at
    least -0.5, and the other affinities are left as they are.  When every
    affinity of the starting profile lies in [-1, 1] (as in the default
    profile), every affinity still does after any sequence of
    [add_feedback] calls. *)
Theorem cuisine_preferences_stay_bounded (p0 : Profile) (calls : list Call) :
  let p := record_all calls p0 in
  (bounded (cuisine_preferences p0) → bounded (cuisine_preferences p))
  ∧ ∀ c cu v,
      rd_cuisine (c_recipe c) = Some cu →
      cuisine_preferences p !! cu = Some v →
      ((4 ≤ c_rating c)%Z →
         cuisine_preferences (record c p) !! cu
         = Some (Qmin 1 (v + Config.cuisine_boost))
         ∧ Qmin 1 (v + Config.cuisine_boost) <= 1)
      ∧ ((c_rating c ≤ 2)%Z →
         cuisine_preferences (record c p) !! cu
         = Some (Qmax (-1 # 2) (v - Config.cuisine_boost * (1 # 2)))
         ∧ -1 # 2 <= Qmax (-1 # 2) (v - Config.cuisine_boost * (1 # 2)))
      ∧ ∀ other, other ≠ cu →
          cuisine_preferences (record c p) !! other
          = cuisine_preferences p !! other.
Proof.
  intros p. split; [by apply bounded_record_all|].
  intros c cu v Hcu Hv. rewrite (record_cuisine_update c p cu v Hcu Hv).
  split_and!.
  - intros Hr. destruct (decide (4 ≤ c_rating c)%Z); [|lia].
    split; [apply lookup_insert_eq|apply Q.le_min_l].
  - intros Hr. destruct (decide (4 ≤ c_rating c)%Z); [lia|].
    destruct (decide (c_rating c ≤ 2)%Z); [|lia].
    split; [apply lookup_insert_eq|apply Q.le_max_l].
  - intros other Hne.
    destruct (decide (4 ≤ c_rating c)%Z); [|destruct (decide (c_rating c ≤ 2)%Z)];
      by rewrite ?lookup_insert_ne.
Qed.

(** From the default profile (liked, then disliked), and from the loaded
    profile whose Arabic affinity is 5. *)
Lemma cuisine_preferences_stay_bounded_witness :
  bounded (cuisine_preferences
             (record_all [like_karahi; dislike_karahi] (initialize_profile 0)))
  ∧ cuisine_preferences
      (record like_karahi
         (record_all [like_karahi; dislike_karahi] (initialize_profile 0)))
      !! "Desi"
    = Some (Qmin 1 ((10 # 200) + Config.cuisine_boost))
  ∧ cuisine_preferences
      (record dislike_karahi
         (record_all [like_karahi; dislike_karahi] (initialize_profile 0)))
      !! "Desi"
    = Some (Qmax (-1 # 2) ((10 # 200) - Config.cuisine_boost * (1 # 2)))
  ∧ cuisine_preferences (record like_karahi (record_all [] loaded_profile))
      !! "Arabic"
    = cuisine_preferences (record_all [] loaded_profile) !! "Arabic".
Proof.
  pose proof (cuisine_preferences_stay_bounded (initialize_profile 0)
                [like_karahi; dislike_karahi]) as [Hb Hs].
  pose proof (cuisine_preferences_stay_bounded loaded_profile []) as [_ Hl].
  split_and!.
  - apply Hb. apply bounded_initialize.
  - refine (proj1 (proj1 (Hs like_karahi "Desi" (10 # 200) _ _) _)).
    + reflexivity.
    + vm_compute. reflexivity.
    + simpl. lia.
  - refine (proj1 (proj1 (proj2 (Hs dislike_karahi "Desi" (10 # 200) _ _)) _)).
    + reflexivity.
    + vm_compute. reflexivity.
    + simpl. lia.
  - refine (proj2 (proj2 (Hl like_karahi "Desi" (-3) _ _)) "Arabic" _).
    + reflexivity.
    + vm_compute. reflexivity.
    + discriminate.
Defined.

(** *** Cuisines without a stored affinity *)

Lemma raise_cuisine_absent cu m :
  (∀ k, cu = Some k → m !! k = None) → raise_cuisine cu m = m.
Proof.
  intros H. unfold raise_cuisine. destruct cu as [k|]; [|done].
  specialize (H k eq_refl). by rewrite H.
Qed.

Lemma lower_cuisine_absent cu m :
  (∀ k, cu = Some k → m !! k = None) → lower_cuisine cu m = m.
Proof.
  intros H. unfold lower_cuisine. destruct cu as [k|]; [|done].
  specialize (H k eq_refl). by rewrite H.
Qed.

(** [add_feedback] never creates or deletes a key. *)
Lemma dom_raise_cuisine cu m : dom (raise_cuisine cu m) = dom m.
Proof.
  unfold raise_cuisine. destruct cu as [k|]; [|done].
  destruct (m !! k) eqn:Hk; [|done].
  rewrite dom_insert_L. apply (elem_of_dom_2 m) in Hk.
  apply subseteq_union_1_L. by apply singleton_subseteq_l.
Qed.

Lemma dom_lower_cuisine cu m : dom (lower_cuisine cu m) = dom m.
Proof.
  unfold lower_cuisine. destruct cu as [k|]; [|done].
  destruct (m !! k) eqn:Hk; [|done].
  rewrite dom_insert_L. apply (elem_of_dom_2 m) in Hk.
  apply subseteq_union_1_L. by apply singleton_subseteq_l.
Qed.

Lemma dom_record c p :
  dom (cuisine_preferences (record c p)) = dom (cuisine_preferences p).
Proof.
  unfold record, add_feedback.
  destruct (decide (4 ≤ c_rating c)%Z); [|destruct (decide (c_rating c ≤ 2)%Z)];
    simpl; auto using dom_raise_cuisine, dom_lower_cuisine.
Qed.

Lemma dom_record_all calls p :
  dom (cuisine_preferences (record_all calls p)) = dom (cuisine_preferences p).
Proof.
  revert p. induction calls as [|c calls IH]; intros p; simpl; [done|].
  rewrite IH. apply dom_record.
Qed.

(** Every profile reached from the default one has exactly the preset
    keys. *)
Lemma reachable_keys_are_preset (t0 : Z) (calls : list Call) (k : string) :
  is_Some (cuisine_preferences (record_all calls (initialize_profile t0)) !! k)
  ↔ k ∈ preset_cuisines.
Proof.
  rewrite <- elem_of_dom, dom_record_all. simpl.
  rewrite !dom_insert_L, dom_empty_L. unfold preset_cuisines.
  rewrite !elem_of_cons. set_solver.
Qed.

(** C9. On a profile whose [cuisine_preferences] has only preset keys
    (Desi, Arabic, Western), an [add_feedback] call for a recipe whose
    cuisine is not one of them leaves the whole mapping as it was,
    whatever the rating. *)
Theorem other_cuisine_leaves_preferences (p : Profile) (c : Call) :
  (∀ k, is_Some (cuisine_preferences p !! k) → k ∈ preset_cuisines) →
  (∀ k, rd_cuisine (c_recipe c) = Some k → k ∉ preset_cuisines) →
  cuisine_preferences (record c p) = cuisine_preferences p.
Proof.
  intros Hkeys Hcu.
  assert (Habs : ∀ k, rd_cuisine (c_recipe c) = Some k →
                      cuisine_preferences p !! k = None).
  { intros k Hk. apply eq_None_not_Some. intros Hs.
    by apply (Hcu k Hk), Hkeys. }
  unfold record, add_feedback.
  destruct (decide (4 ≤ c_rating c)%Z); [|destruct (decide (c_rating c ≤ 2)%Z)];
    simpl; auto using raise_cuisine_absent, lower_cuisine_absent.
Qed.

Lemma other_cuisine_leaves_preferences_witness :
  cuisine_preferences (record like_mystery_dish (initialize_profile 0))
  = cuisine_preferences (initialize_profile 0).
Proof.
  apply other_cuisine_leaves_preferences.
  - intros k Hk. apply (reachable_keys_are_preset 0 [] k). exact Hk.
  - intros k Hk. injection Hk as <-. unfold preset_cuisines.
    rewrite !elem_of_cons, elem_of_nil. intros [?|[?|[?|[]]]]; discriminate.
Defined.

(** *** The personalized boost *)

(** C7. On the default profile, after
    [add_feedback("Chicken Karahi", 5, ["comfort"], {cuisine: "Desi",
    meal_time: "Dinner", cook_time: 30})], whatever the times of the two
    calls, [get_personalized_boost] of the row {cuisine: "Desi", title:
    "Chicken Karahi", meal_time: "Dinner"} is at least 0.5 and at most 1.0. *)
Theorem karahi_boost_range (t_init t_feedback t_query : Z) :
  let p :=
    add_feedback t_feedback "Chicken Karahi" 5 ["comfort"] karahi
      (initialize_profile t_init) in
  let boost := get_personalized_boost t_query (Some p) karahi_row in
  (1 # 2) <= boost ∧ boost <= 1.
Proof.
  intros p boost.
  assert (Hl : liked_recipes p = ["Chicken Karahi"]) by (vm_compute; reflexivity).
  assert (Hd : disliked_recipes p = []) by (vm_compute; reflexivity).
  assert (Hc : cuisine_preferences p !! "Desi" = Some (1 # 10))
    by (vm_compute; reflexivity).
  assert (Hh : feedback_history p
               = [mkFeedback "Chicken Karahi" 5 ["comfort"] (Some t_feedback)
                    (Some "Desi") (Some "Dinner") (Some 30%Z)])
    by (vm_compute; reflexivity).
  subst boost. clearbody p.
  unfold get_personalized_boost, personalized_boost, _get_recent_feedback.
  cbv zeta. cbn [rd_cuisine rd_title rd_meal_time karahi_row].
  rewrite Hl, Hd, Hh, Hc. cbn [List.filter fb_timestamp].
  destruct (bool_decide (t_query - 30 * day < t_feedback)%Z);
    vm_compute; split; discriminate.
Qed.

End UserProfileFacts.

(** ** Mood analysis *)

Module MoodAnalyzerFacts.
Import MoodAnalyzer.

Lemma Qltb_true (a b : Q) : Qltb a b = true ↔ a < b.
Proof.
  unfold Qltb. rewrite negb_true_iff, <- not_true_iff_false, Qle_bool_iff.
  split; [apply Qnot_le_lt|apply Qlt_not_le].
Qed.

Lemma Qltb_false (a b : Q) : Qltb a b = false ↔ b <= a.
Proof. unfold Qltb. rewrite negb_false_iff. apply Qle_bool_iff. Qed.

(** Python's [max(x, y)] keeps [x] unless [y] is strictly larger. *)
Lemma Qmax_keeps_first (x y : Q) : y <= x → Qmax x y = x.
Proof.
  intros Hyx. unfold Qmax, GenericMinMax.gmax.
  destruct (Qcompare x y) eqn:E; try reflexivity.
  apply Qlt_alt in E. by apply Qlt_not_le in E.
Qed.

Lemma Qmax_at_least_first (x y : Q) : x <= Qmax x y.
Proof. apply Q.le_max_l. Qed.

(** The modifier loop never goes below its starting value, and the
    entries whose multiplier is at most 1 do not change its result. *)
Lemma modifier_loop_amplifying (table : list (string * Q)) (before_text : string)
  (start : Q) :
  1 <= start →
  let step := fun intensity (entry : string * Q) =>
    let '(modifier, multiplier) := entry in
    if contains modifier before_text then Qmax intensity multiplier
    else intensity in
  1 <= fold_left step table start
  ∧ fold_left step table start
    = fold_left step (List.filter (fun entry => Qltb 1 (snd entry)) table) start.
Proof.
  intros Hstart step. revert start Hstart.
  induction table as [|[modifier multiplier] table IH]; intros start Hstart;
    simpl; [done|].
  assert (Hnext : 1 <= step start (modifier, multiplier)).
  { simpl. destruct (contains modifier before_text); [|done].
    eapply Qle_trans; [exact Hstart|apply Qmax_at_least_first]. }
  destruct (IH _ Hnext) as [Hge Heq]. split; [exact Hge|].
  destruct (Qltb 1 multiplier) eqn:Hm; simpl.
  - exact Heq.
  - apply Qltb_false in Hm.
    assert (Hs : step start (modifier, multiplier) = start).
    { simpl. destruct (contains modifier before_text); [|done].
      apply Qmax_keeps_first. by eapply Qle_trans. }
    rewrite Hs in Heq. simpl in Hs. rewrite Hs. exact Heq.
Qed.

(** The result of the modifier loop is at least the multiplier of every
    modifier found in the text before the keyword. *)
Lemma modifier_loop_upper_bound (table : list (string * Q)) (before_text : string)
  (start : Q) (modifier : string) (multiplier : Q) :
  (modifier, multiplier) ∈ table →
  contains modifier before_text = true →
  multiplier <= strongest_modifier_from table before_text start
  ∧ start <= strongest_modifier_from table before_text start.
Proof.
  unfold strongest_modifier_from. revert start.
  induction table as [|[m k] table IH]; intros start Hin Hfound;
    [by apply elem_of_nil in Hin|].
  assert (Hmono : ∀ tbl s,
            s <= fold_left
                   (fun intensity (entry : string * Q) =>
                      let '(modifier, multiplier) := entry in
                      if contains modifier before_text
                      then Qmax intensity multiplier else intensity)
                   tbl s).
  { clear. induction tbl as [|[m k] tbl IHt]; intros s; simpl; [apply Qle_refl|].
    eapply Qle_trans; [|apply IHt].
    destruct (contains m before_text); [apply Q.le_max_l|apply Qle_refl]. }
  simpl. apply elem_of_cons in Hin as [Heq|Hin].
  - injection Heq as <- <-. rewrite Hfound. split.
    + eapply Qle_trans; [apply Q.le_max_r|apply Hmono].
    + eapply Qle_trans; [apply Q.le_max_l|apply Hmono].
  - destruct (IH (if contains m before_text then Qmax start k else start)
                Hin Hfound) as [Hk Hs].
    split; [exact Hk|]. eapply Qle_trans; [|exact Hs].
    destruct (contains m before_text); [apply Q.le_max_l|apply Qle_refl].
Qed.

Lemma modifier_loop_value (table : list (string * Q)) (before_text : string)
  (start : Q) :
  let result := strongest_modifier_from table before_text start in
  result = start
  ∨ ∃ modifier, (modifier, result) ∈ table
                ∧ contains modifier before_text = true.
Proof.
  unfold strongest_modifier_from. revert start.
  induction table as [|[m k] table IH]; intros start; simpl; [by left|].
  destruct (IH (if contains m before_text then Qmax start k else start))
    as [Heq|(modifier & Hin & Hfound)].
  - rewrite Heq. destruct (contains m before_text) eqn:Hm; [|by left].
    unfold Qmax, GenericMinMax.gmax. destruct (Qcompare start k); [by left| |by left].
    right. exists m. split; [by left|done].
  - right. exists modifier. split; [by right|done].
Qed.

(** [contains] is the occurrence test. *)
Lemma contains_occurs (sub s : string) : contains sub s = true ↔ occurs_in sub s.
Proof.
  unfold contains, find, occurs_in. split.
  - destruct (String.index 0 sub s) as [n|] eqn:Hn; [|discriminate].
    intros _. exists n. by eapply String.index_correct1.
  - intros [n Hn]. destruct (String.index 0 sub s) as [m|] eqn:Hm; [done|].
    exfalso. destruct sub as [|c sub].
    + apply String.index_correct4 in Hm. lia.
    + eapply (String.index_correct3 0 n); [exact Hm|discriminate|lia|exact Hn].
Qed.

(** [find] returns the first position at which the keyword occurs. *)
Lemma find_first (keyword text : string) (pos : nat) :
  String.substring pos (String.length keyword) text = keyword →
  (∀ p, (p < pos)%nat →
        String.substring p (String.length keyword) text ≠ keyword) →
  find keyword text = Some pos.
Proof.
  intros Hat Hbefore. unfold find.
  destruct (String.index 0 keyword text) as [m|] eqn:Hm.
  - f_equal. pose proof (String.index_correct1 _ _ _ _ Hm) as Hm1.
    pose proof (String.index_correct2 _ _ _ _ Hm) as Hm2.
    destruct (lt_eq_lt_dec m pos) as [[Hlt|Heq]|Hgt]; [|done|].
    + by destruct (Hbefore m Hlt).
    + destruct (Hm2 pos); [lia|done|done].
  - exfalso. destruct keyword as [|c keyword].
    + apply String.index_correct4 in Hm. lia.
    + eapply (String.index_correct3 0 pos); [exact Hm|discriminate|lia|exact Hat].
Qed.

Lemma find_absent (keyword text : string) :
  ¬ occurs_in keyword text → find keyword text = None.
Proof.
  intros Hno. unfold find.
  destruct (String.index 0 keyword text) as [m|] eqn:Hm; [|done].
  exfalso. apply Hno. exists m. by eapply String.index_correct1.
Qed.

(** [text[max(0, pos-20):pos]] is the (up to) 20 characters that end where
    the keyword begins. *)
Lemma before_keyword_window (text : string) (pos : nat) :
  before_keyword text pos
  = String.substring (pos - 20) (Nat.min pos 20) text.
Proof. unfold before_keyword. f_equal. lia. Qed.

(** C10. For every text and keyword the intensity returned by
    [_get_keyword_intensity] is at least 1.0, and it is the intensity the
    lookup returns when the modifier table is cut down to the entries whose
    multiplier exceeds 1: 'somewhat', 'slightly', 'a bit' and 'a little'
    have no effect.  The intensity is the maximum of 1.0 and the
    multipliers of the modifier phrases that occur in the 20 characters
    before the first occurrence of the keyword: it is 1.0 when the keyword
    does not occur; otherwise it is at least the multiplier of every
    modifier that occurs there, and it is 1.0 or the multiplier of one of
    them. *)
Theorem keyword_intensity_at_least_one (text keyword : string) :
  1 <= _get_keyword_intensity text keyword
  ∧ _get_keyword_intensity text keyword
    = keyword_intensity_with amplifying_words text keyword
  ∧ List.map fst amplifying_words
    = ["very"; "extremely"; "super"; "really"; "quite"; "pretty"; "totally";
       "completely"]
  ∧ (¬ occurs_in keyword text → _get_keyword_intensity text keyword = 1)
  ∧ ∀ keyword_pos : nat,
      String.substring keyword_pos (String.length keyword) text = keyword →
      (∀ p, (p < keyword_pos)%nat →
            String.substring p (String.length keyword) text ≠ keyword) →
      let before_text :=
        String.substring (keyword_pos - 20) (Nat.min keyword_pos 20) text in
      (∀ modifier multiplier,
          (modifier, multiplier) ∈ intensity_words →
          occurs_in modifier before_text →
          multiplier <= _get_keyword_intensity text keyword)
      ∧ (_get_keyword_intensity text keyword = 1
         ∨ ∃ modifier,
             (modifier, _get_keyword_intensity text keyword) ∈ intensity_words
             ∧ occurs_in modifier before_text).
Proof.
  split_and!.
  - unfold _get_keyword_intensity, keyword_intensity_with.
    destruct (find keyword text); [|done].
    apply (modifier_loop_amplifying intensity_words). done.
  - unfold _get_keyword_intensity, keyword_intensity_with.
    destruct (find keyword text); [|done].
    apply (modifier_loop_amplifying intensity_words). done.
  - reflexivity.
  - intros Hno. unfold _get_keyword_intensity, keyword_intensity_with.
    by rewrite (find_absent keyword text Hno).
  - intros keyword_pos Hat Hbefore before_text.
    unfold _get_keyword_intensity, keyword_intensity_with.
    rewrite (find_first keyword text keyword_pos Hat Hbefore).
    rewrite before_keyword_window. fold before_text.
    unfold strongest_modifier. split.
    + intros modifier multiplier Hin Hocc.
      apply (modifier_loop_upper_bound intensity_words before_text 1 modifier);
        [done|by apply contains_occurs].
    + destruct (modifier_loop_value intensity_words before_text 1)
        as [Heq|(modifier & Hin & Hfound)]; [by left|].
      right. exists modifier. split; [done|by apply contains_occurs].
Qed.

(** "i am very stressed": the keyword starts at position 10, after "very";
    and a text without the keyword. *)
Lemma keyword_intensity_at_least_one_witness :
  15 # 10 <= _get_keyword_intensity "i am very stressed" "stressed"
  ∧ _get_keyword_intensity "i am very tired" "stressed" = 1.
Proof.
  split.
  - refine (proj1 (proj2 (proj2 (proj2 (proj2
              (keyword_intensity_at_least_one "i am very stressed" "stressed"))))
              10%nat _ _) "very" (15 # 10) _ _).
    + reflexivity.
    + intros p Hp. do 10 (destruct p as [|p]; [vm_compute; discriminate|]). lia.
    + unfold intensity_words. by left.
    + exists 5%nat. reflexivity.
  - apply (proj1 (proj2 (proj2 (proj2
             (keyword_intensity_at_least_one "i am very tired" "stressed"))))).
    intros Hocc. apply contains_occurs in Hocc. vm_compute in Hocc. discriminate.
Defined.

(** *** The sentiment tag *)

Lemma Qle_bool_false (a b : Q) : Qle_bool a b = false ↔ b < a.
Proof.
  rewrite <- not_true_iff_false, Qle_bool_iff.
  split; [apply Qnot_le_lt|apply Qlt_not_le].
Qed.

(** The three branches of the sentiment test, one by one. *)
Lemma sentiment_tags_cases (s : Q) :
  (s < -4 # 10 ∧ sentiment_tags s = ["negative"])
  ∨ (4 # 10 < s ∧ sentiment_tags s = ["positive"])
  ∨ ((-2 # 10 <= s ∧ s <= 2 # 10) ∧ sentiment_tags s = ["neutral"])
  ∨ (((2 # 10 < s ∧ s <= 4 # 10) ∨ (-4 # 10 <= s ∧ s < -2 # 10))
     ∧ sentiment_tags s = []).
Proof.
  unfold sentiment_tags.
  destruct (Qltb s (-4 # 10)) eqn:H1; [left; by apply Qltb_true in H1|].
  destruct (Qltb (4 # 10) s) eqn:H2; [right; left; by apply Qltb_true in H2|].
  apply Qltb_false in H1, H2. right; right.
  destruct (Qle_bool (-2 # 10) s) eqn:H3; simpl.
  - destruct (Qle_bool s (2 # 10)) eqn:H4.
    + left. apply Qle_bool_iff in H3, H4. done.
    + right. apply Qle_bool_false in H4. split; [left|]; done.
  - right. apply Qle_bool_false in H3. split; [right|]; done.
Qed.

(** The category tags are picked, in order, from the nine category names. *)
Lemma scan_categories_sublist (text : string) (table : list (string * list string))
  (acc : list string * list (string * Q)) :
  let step := fun (acc : list string * list (string * Q))
                  (entry : string * list string) =>
    let '(detected_tags, tag_scores) := acc in
    let '(category, keywords) := entry in
    let '(category_score, matches) := scan_keywords text keywords in
    if decide (0 < matches)%nat
    then (detected_tags ++ [category],
          tag_scores
            ++ [(category, category_score / inject_Z (Z.of_nat (max matches 1)))])
    else acc in
  ∃ picked, fst (fold_left step table acc) = fst acc ++ picked
            ∧ sublist picked (List.map fst table).
Proof.
  intros step. revert acc.
  induction table as [|[category keywords] table IH]; intros [tags scores]; simpl.
  - exists []. by rewrite app_nil_r.
  - destruct (scan_keywords text keywords) as [score matches].
    destruct (decide (0 < matches)%nat).
    + destruct (IH (tags ++ [category],
                    scores ++ [(category,
                                score / inject_Z (Z.of_nat (max matches 1)))]))
        as (picked & Heq & Hsub).
      exists (category :: picked). simpl in Heq. rewrite Heq, <- app_assoc.
      split; [done|]. by apply sublist_skip.
    + destruct (IH (tags, scores)) as (picked & Heq & Hsub).
      exists picked. split; [done|]. by apply sublist_cons.
Qed.

Lemma category_tags_sublist (text : string) :
  sublist (category_tags text) (List.map fst emotion_keywords).
Proof.
  destruct (scan_categories_sublist text emotion_keywords ([], []))
    as (picked & Heq & Hsub).
  change (category_tags text = picked) in Heq. by rewrite Heq.
Qed.

Lemma sentiment_tags_sublist (s : Q) :
  sublist (sentiment_tags s) ["negative"; "positive"; "neutral"].
Proof.
  destruct (sentiment_tags_cases s) as [[_ ->]|[[_ ->]|[[_ ->]|[_ ->]]]];
    repeat first [apply sublist_nil|apply sublist_skip|apply sublist_cons].
Qed.

(** The duplicate-removing loop keeps a list without duplicates as it is. *)
Lemma unique_from_NoDup (seen : gset string) (tags : list string) :
  NoDup tags → (∀ tag, tag ∈ tags → tag ∉ seen) → unique_from seen tags = tags.
Proof.
  intros Hnd. revert seen. induction Hnd as [|tag tags Hnotin Hnd IH];
    intros seen Hseen; simpl; [done|].
  destruct (decide (tag ∈ seen)) as [Hin|_].
  - exfalso. apply (Hseen tag); [by left|done].
  - f_equal. apply IH. intros t Ht. rewrite elem_of_union, elem_of_singleton.
    intros [->|Hs]; [done|]. apply (Hseen t); [by right|done].
Qed.

Lemma detected_tags_NoDup (polarity : string → Q) (mood_text : string) :
  NoDup (detected_tags polarity mood_text).
Proof.
  unfold detected_tags.
  eapply (sublist_NoDup _
            (List.map fst emotion_keywords ++ ["negative"; "positive"; "neutral"])).
  - vm_compute List.map. apply (bool_decide_unpack _). vm_compute. exact I.
  - apply sublist_app; [apply category_tags_sublist|apply sentiment_tags_sublist].
Qed.

(** The bands of the sentiment test. *)
Lemma sentiment_tags_iff (s : Q) :
  (length (sentiment_tags s) ≤ 1)%nat
  ∧ (sentiment_tags s = ["negative"] ↔ s < -4 # 10)
  ∧ (sentiment_tags s = ["positive"] ↔ 4 # 10 < s)
  ∧ (sentiment_tags s = ["neutral"] ↔ -2 # 10 <= s ∧ s <= 2 # 10)
  ∧ (sentiment_tags s = []
     ↔ (2 # 10 < s ∧ s <= 4 # 10) ∨ (-4 # 10 <= s ∧ s < -2 # 10)).
Proof.
  destruct (sentiment_tags_cases s)
    as [[Ha ->]|[[Ha ->]|[[[Ha Hb] ->]|[[[Ha Hb]|[Ha Hb]] ->]]]];
    (split_and!; [simpl; lia|..]); split; intros H;
    try discriminate H; try reflexivity;
    destruct s as [n d]; unfold Qle, Qlt in *; simpl in *; lia.
Qed.

(** C5. For a non-empty mood text the tags collected before duplicates are
    removed are the category tags followed by the sentiment tags, of which
    there is at most one: 'negative' exactly when the sentiment is below
    -0.4, 'positive' exactly when it is above 0.4, 'neutral' exactly when it
    lies in [-0.2, 0.2], and none when it lies in (0.2, 0.4] or
    [-0.4, -0.2).  The returned tags are the first five of that list. *)
Theorem sentiment_tag_bands (polarity : string → Q) (mood_text : string) :
  mood_text ≠ "" →
  let sentiment := polarity mood_text in
  let categories := category_tags (Filters.lower mood_text) in
  detected_tags polarity mood_text = categories ++ sentiment_tags sentiment
  ∧ (length (sentiment_tags sentiment) ≤ 1)%nat
  ∧ (sentiment_tags sentiment = ["negative"] ↔ sentiment < -4 # 10)
  ∧ (sentiment_tags sentiment = ["positive"] ↔ 4 # 10 < sentiment)
  ∧ (sentiment_tags sentiment = ["neutral"]
     ↔ -2 # 10 <= sentiment ∧ sentiment <= 2 # 10)
  ∧ (sentiment_tags sentiment = []
     ↔ (2 # 10 < sentiment ∧ sentiment <= 4 # 10)
       ∨ (-4 # 10 <= sentiment ∧ sentiment < -2 # 10))
  ∧ extract_mood_tags polarity mood_text
    = (take 5 (categories ++ sentiment_tags sentiment), sentiment).
Proof.
  intros Hne sentiment categories.
  destruct (sentiment_tags_iff sentiment) as (Hlen & Hneg & Hpos & Hneu & Hnone).
  split_and!; try done.
  unfold extract_mood_tags. destruct (decide (mood_text = "")); [done|].
  rewrite unique_from_NoDup; [done|apply detected_tags_NoDup|].
  intros tag _. apply not_elem_of_empty.
Qed.

(** A mood text of the specification, with a sentiment in the neutral
    band. *)
Lemma sentiment_tag_bands_witness :
  extract_mood_tags (fun _ => 0) "I'm stressed and tired"
  = (["stress"; "comfort"; "neutral"], 0).
Proof.
  destruct (sentiment_tag_bands (fun _ => 0) "I'm stressed and tired")
    as (_ & _ & _ & _ & _ & _ & Hout); [discriminate|].
  rewrite Hout. vm_compute. reflexivity.
Defined.

End MoodAnalyzerFacts.

(** ** The diversity filter *)

Module FiltersFacts.
Import Filters.

Lemma running_count_snoc (cu : string) (admitted : list Row) (r : Row) :
  running_count cu (admitted ++ [r])
  = (running_count cu admitted + (if decide (cuisine r = cu) then 1 else 0))%Z.
Proof.
  unfold running_count. rewrite List.filter_app, length_app. simpl.
  destruct (decide (cuisine r = cu)) as [Heq|Hne].
  - rewrite bool_decide_eq_true_2 by done. simpl. lia.
  - rewrite bool_decide_eq_false_2 by done. simpl. lia.
Qed.

Lemma counts_agree_start : counts_agree ∅ [].
Proof. intros cu. by rewrite lookup_empty. Qed.

Lemma counts_agree_admit cuisine_count admitted r :
  counts_agree cuisine_count admitted →
  counts_agree
    (<[cuisine r := (default 0%Z (cuisine_count !! cuisine r) + 1)%Z]> cuisine_count)
    (admitted ++ [r]).
Proof.
  intros Hagree cu. rewrite running_count_snoc.
  destruct (decide (cuisine r = cu)) as [<-|Hne].
  - rewrite lookup_insert_eq. simpl. by rewrite Hagree.
  - rewrite lookup_insert_ne by done. rewrite Hagree. lia.
Qed.

(** Once three candidates are in, the walk of the specification is over. *)
Lemma walk_full max_same admitted ranked :
  (3 ≤ length admitted)%nat → walk max_same 3 admitted ranked = admitted.
Proof.
  intros Hfull. destruct ranked; simpl; [done|].
  by destruct (decide (3 ≤ length admitted)%nat).
Qed.

(** The loop of the code is the walk of the specification. *)
Lemma diversity_loop_walk max_same ranked admitted cuisine_count :
  counts_agree cuisine_count admitted →
  (length admitted < 3)%nat →
  diversity_loop max_same ranked admitted cuisine_count
  = walk max_same 3 admitted ranked.
Proof.
  revert admitted cuisine_count.
  induction ranked as [|r ranked IH]; intros admitted cuisine_count Hagree Hlen;
    simpl; [done|].
  destruct (decide (3 ≤ length admitted)%nat); [lia|].
  rewrite (Hagree (cuisine r)).
  destruct (decide (running_count (cuisine r) admitted < max_same)%Z).
  - destruct (decide (3 ≤ length (admitted ++ [r]))%nat) as [Hfull|Hroom].
    + by rewrite walk_full.
    + apply IH; [|lia]. rewrite <- (Hagree (cuisine r)).
      by apply counts_agree_admit.
  - destruct (decide (3 ≤ length admitted)%nat); [lia|]. by apply IH.
Qed.

(** What the walk returns: the candidates already admitted, followed by
    some of the remaining ones in their order; never more than three unless
    it started with more; and no cuisine above the cap unless it started
    above it. *)
Lemma walk_shape max_same ranked admitted :
  ∃ more, walk max_same 3 admitted ranked = admitted ++ more
          ∧ sublist more ranked
          ∧ (length (admitted ++ more) ≤ max 3 (length admitted))%nat
          ∧ ∀ cu, (running_count cu (admitted ++ more)
                   ≤ Z.max max_same (running_count cu admitted))%Z.
Proof.
  revert admitted. induction ranked as [|r ranked IH]; intros admitted; simpl.
  - exists []. rewrite app_nil_r. split_and!; [done|done|lia|intros; lia].
  - destruct (decide (3 ≤ length admitted)%nat).
    { exists []. rewrite app_nil_r.
      split_and!; [done|apply sublist_nil_l|lia|intros; lia]. }
    destruct (decide (running_count (cuisine r) admitted < max_same)%Z).
    + destruct (IH (admitted ++ [r])) as (more & Heq & Hsub & Hlen & Hcap).
      exists (r :: more). rewrite Heq, <- app_assoc. simpl.
      rewrite <- app_assoc in Hlen, Hcap. simpl in Hlen, Hcap.
      split_and!; [done|by apply sublist_skip| |].
      * rewrite !length_app in *. simpl in *. lia.
      * intros cu. specialize (Hcap cu). rewrite running_count_snoc in Hcap.
        destruct (decide (cuisine r = cu)) as [<-|]; lia.
    + destruct (IH admitted) as (more & Heq & Hsub & Hlen & Hcap).
      exists more. split_and!; [done|by apply sublist_cons|done|done].
Qed.

(** C6. [apply_diversity_filter] is the filter of the specification with
    [maxResults = 3]: an input no longer than the cap is returned as it is;
    otherwise the result is the walk, which keeps admitted candidates in
    their input order, holds at most three of them, and holds no cuisine
    more often than the cap allows. *)
Theorem apply_diversity_filter_walk (recommendations : list Row)
  (max_same_cuisine : Z) :
  let result := apply_diversity_filter recommendations max_same_cuisine in
  result = applyDiversity recommendations max_same_cuisine 3
  ∧ sublist result recommendations
  ∧ ((Z.of_nat (length recommendations) ≤ max_same_cuisine)%Z →
     result = recommendations)
  ∧ ((max_same_cuisine < Z.of_nat (length recommendations))%Z →
     result = walk max_same_cuisine 3 [] recommendations
     ∧ (length result ≤ 3)%nat
     ∧ ∀ cu, (running_count cu result ≤ Z.max max_same_cuisine 0)%Z).
Proof.
  intros result. subst result. unfold apply_diversity_filter, applyDiversity.
  destruct (walk_shape max_same_cuisine recommendations [])
    as (more & Heq & Hsub & Hlen & Hcap).
  simpl in Heq, Hlen, Hcap.
  destruct (decide (Z.of_nat (length recommendations) ≤ max_same_cuisine)%Z).
  - split_and!; [done|done|done|lia].
  - rewrite diversity_loop_walk by (apply counts_agree_start || simpl; lia).
    rewrite Heq. split_and!; [done|done|lia|].
    intros _. split_and!; [done|done|].
    intros cu. specialize (Hcap cu). unfold running_count in Hcap at 2.
    simpl in Hcap. lia.
Qed.

(** Four candidates of one cuisine under a cap of two, and two candidates
    under the same cap. *)
Lemma apply_diversity_filter_walk_witness :
  apply_diversity_filter
    [dish "A" "Desi" 0.9; dish "B" "Desi" 0.8; dish "C" "Desi" 0.7;
     dish "D" "Desi" 0.6] 2
  = walk 2 3 []
      [dish "A" "Desi" 0.9; dish "B" "Desi" 0.8; dish "C" "Desi" 0.7;
       dish "D" "Desi" 0.6]
  ∧ apply_diversity_filter [dish "A" "Desi" 0.9; dish "B" "Desi" 0.8] 2
    = [dish "A" "Desi" 0.9; dish "B" "Desi" 0.8].
Proof.
  split.
  - apply (proj2 (proj2 (proj2 (apply_diversity_filter_walk
             [dish "A" "Desi" 0.9; dish "B" "Desi" 0.8; dish "C" "Desi" 0.7;
              dish "D" "Desi" 0.6] 2)))).
    simpl. lia.
  - apply (proj1 (proj2 (proj2 (apply_diversity_filter_walk
             [dish "A" "Desi" 0.9; dish "B" "Desi" 0.8] 2)))).
    simpl. lia.
Defined.

End FiltersFacts.

(** ** Embeddings *)

Module EmbedderFacts.
Import Embedder.

Lemma Qmult_swap (a b : Q) : a * b = b * a.
Proof. unfold Qmult. f_equal; [apply Z.mul_comm|apply Pos.mul_comm]. Qed.

Lemma scale_weighted (w : Q) (v : list Q) : scale w v = weighted w v.
Proof.
  unfold scale, weighted. apply List.map_ext. intros x. apply Qmult_swap.
Qed.

Lemma cuisine_lookup (cuisine_ : string) :
  dict_get cuisine_weights cuisine_ [5 # 10; 5 # 10; 5 # 10]
  = cuisineVector cuisine_.
Proof.
  unfold cuisineVector, cuisine_weights. simpl.
  repeat (destruct (decide _); [reflexivity|]). reflexivity.
Qed.

Lemma time_lookup (meal_time_ : string) :
  dict_get time_weights meal_time_ [5 # 10; 5 # 10; 5 # 10]
  = timeVector meal_time_.
Proof.
  unfold timeVector, time_weights. simpl.
  repeat (destruct (decide _); [reflexivity|]). reflexivity.
Qed.

Lemma length_cuisineVector c : length (cuisineVector c) = 3%nat.
Proof. unfold cuisineVector. by repeat destruct (decide _). Qed.

Lemma length_timeVector m : length (timeVector m) = 3%nat.
Proof. unfold timeVector. by repeat destruct (decide _). Qed.

(** C8. For every description, cuisine, meal time and cook time
    [get_enhanced_embedding] returns 0.7 times the text embedding, followed
    by 0.2 times the cuisine vector, 0.1 times the meal-time vector and the
    component [0.1 * min(cook_time / 60, 1.0)]: [D + 3 + 3 + 1] components.  A
    cuisine or meal time outside the tables has the neutral vector
    [0.5, 0.5, 0.5]; the function returns a vector in every case. *)
Theorem enhanced_embedding_composition (get_embedding : string → list Q)
  (description_ cuisine_ meal_time_ : string) (cook_time_ : Z) :
  let enhanced :=
    get_enhanced_embedding get_embedding description_ cuisine_ meal_time_
      cook_time_ in
  enhanced
  = weighted (7 # 10) (get_embedding description_)
      ++ weighted (2 # 10) (cuisineVector cuisine_)
      ++ weighted (1 # 10) (timeVector meal_time_)
      ++ [(1 # 10) * Qmin (inject_Z cook_time_ / 60) 1]
  ∧ length enhanced = (length (get_embedding description_) + 3 + 3 + 1)%nat
  ∧ (cuisine_ ∉ ["Desi"; "Arabic"; "Western"] → cuisineVector cuisine_ = neutral)
  ∧ (meal_time_ ∉ ["Breakfast"; "Lunch"; "Dinner"] →
     timeVector meal_time_ = neutral).
Proof.
  intros enhanced.
  assert (Heq : enhanced
                = weighted (7 # 10) (get_embedding description_)
                    ++ weighted (2 # 10) (cuisineVector cuisine_)
                    ++ weighted (1 # 10) (timeVector meal_time_)
                    ++ [(1 # 10) * Qmin (inject_Z cook_time_ / 60) 1]).
  { subst enhanced. unfold get_enhanced_embedding.
    rewrite cuisine_lookup, time_lookup, !scale_weighted.
    by rewrite (Qmult_swap (Qmin _ _)). }
  split_and!.
  - exact Heq.
  - rewrite Heq. unfold weighted.
    rewrite !length_app, !length_map, length_cuisineVector, length_timeVector.
    simpl. lia.
  - intros Hc. unfold cuisineVector.
    repeat (destruct (decide _) as [->|_]; [exfalso; apply Hc; set_solver|]).
    reflexivity.
  - intros Hm. unfold timeVector.
    repeat (destruct (decide _) as [->|_]; [exfalso; apply Hm; set_solver|]).
    reflexivity.
Qed.

Lemma enhanced_embedding_composition_witness :
  cuisineVector "Unknown" = neutral ∧ timeVector "Brunch" = neutral.
Proof.
  pose proof (enhanced_embedding_composition (fun _ => []) "" "Unknown" "Brunch" 45)
    as (_ & _ & Hc & Hm).
  split; [apply Hc|apply Hm];
    rewrite !elem_of_cons, elem_of_nil; intros [?|[?|[?|[]]]]; discriminate.
Defined.

End EmbedderFacts.

(** ** The recommendation block *)

Module AppFacts.
Import App.

(** *** Sorting *)

Lemma insert_desc_Permutation key r sorted :
  Permutation (insert_desc key r sorted) (r :: sorted).
Proof.
  induction sorted as [|x rest IH]; simpl; [reflexivity|].
  destruct (Qle_bool (key x) (key r)); [reflexivity|].
  rewrite IH. apply perm_swap.
Qed.

Lemma sort_values_Permutation key rs : Permutation (sort_values key rs) rs.
Proof.
  induction rs as [|r rs IH]; simpl; [reflexivity|].
  rewrite insert_desc_Permutation. by constructor.
Qed.

Lemma insert_desc_sorted key r sorted :
  StronglySorted (fun a b => key b <= key a) sorted →
  StronglySorted (fun a b => key b <= key a) (insert_desc key r sorted).
Proof.
  induction 1 as [|x rest Hrest IH Hx]; simpl.
  - repeat constructor.
  - destruct (Qle_bool (key x) (key r)) eqn:Hle.
    + apply Qle_bool_iff in Hle. constructor; [by constructor|].
      constructor; [done|].
      eapply Forall_impl; [exact Hx|]. intros y Hy. simpl in *.
      eapply Qle_trans; [exact Hy|exact Hle].
    + assert (Hlt : key r <= key x).
      { apply Qlt_le_weak, Qnot_le_lt. intros Hc.
        apply Qle_bool_iff in Hc. congruence. }
      constructor; [done|].
      rewrite insert_desc_Permutation. by constructor.
Qed.

(** [sort_values] orders the rows by decreasing key. *)
Lemma sort_values_sorted key rs :
  StronglySorted (fun a b => key b <= key a) (sort_values key rs).
Proof.
  induction rs as [|r rs IH]; simpl; [constructor|].
  by apply insert_desc_sorted.
Qed.

(** *** Scoring *)


(** On a frame without a [cuisine_boost] column the ranking is by
    similarity, with or without learning, whatever the profile. *)
Lemma rank_ignores_profile enable_learning prefs df :
  has_column "cuisine_boost" df = false →
  rank enable_learning prefs df
  = ("similarity",
     Filters.apply_diversity_filter
       (take 6 (sort_values similarity (rows df))) 2).
Proof.
  intros Hcol. unfold rank. rewrite Hcol, andb_false_r. reflexivity.
Qed.

Lemma has_column_add_other name other cols :
  name ≠ other →
  py_in name (add_column other cols) = py_in name cols.
Proof.
  intros Hne. unfold add_column.
  destruct (py_in name cols) eqn:Hin.
  - apply py_in_true. apply elem_of_append_if_absent. right. by apply py_in_true.
  - apply py_in_false. rewrite elem_of_append_if_absent.
    apply py_in_false in Hin. intros [?|?]; done.
Qed.

Lemma filter_by_cuisine_columns df choice :
  columns (filter_by_cuisine df choice) = columns df.
Proof. unfold filter_by_cuisine. by destruct (bool_decide _). Qed.

(** The learning switch and the profile do not reach the result of the
    block when the catalog has no [cuisine_boost] column. *)
Lemma recommend_ignores_learning polarity get_embedding cosine df mood choice
  enhanced prefs prefs' :
  has_column "cuisine_boost" df = false →
  recommend polarity get_embedding cosine df mood choice enhanced true prefs
  = recommend polarity get_embedding cosine df mood choice enhanced false prefs'.
Proof.
  intros Hcol. unfold recommend.
  destruct (is_blank mood); [done|].
  destruct (MoodAnalyzer.extract_mood_tags polarity mood) as [tags sentiment].
  destruct (embeddings get_embedding enhanced mood (filter_by_cuisine df choice))
    as [[recipe_embeddings mood_embedding]|e]; [simpl|done].
  destruct (cosine_similarity cosine mood_embedding recipe_embeddings)
    as [similarities|e]; [simpl|done].
  rewrite !rank_ignores_profile; [done|..].
  all: unfold has_column; simpl;
    rewrite has_column_add_other, filter_by_cuisine_columns by done;
    exact Hcol.
Qed.

(** C1 fails on the code. With learning enabled and a stored Desi affinity
    of 0.5, the karahi (similarity 0.3, Desi) has the boosted score 0.8 and
    the grilled cheese (similarity 0.4, Western) 0.4; the block ranks by
    the [similarity] column, computes no final score, and puts the grilled
    cheese first. *)
Theorem learning_does_not_boost :
  recommend sample_polarity sample_embedding sample_cosine sample_catalog
    "I'm stressed and tired" "All" false true desi_fan
  = Ok (Recommendations ["stress"; "comfort"; "neutral"] 0 "similarity"
          [set_similarity (4 # 10) grilled_cheese;
           set_similarity (3 # 10) chicken_karahi])
  ∧ boosted_score desi_fan (set_similarity (4 # 10) grilled_cheese) = 4 # 10
  ∧ boosted_score desi_fan (set_similarity (3 # 10) chicken_karahi) == 8 # 10.
Proof.
  split_and!; vm_compute; reflexivity.
Qed.

(** *** Empty candidate sets *)

(** C2 fails on the code. When no recipe is left after the cuisine
    selection (an empty catalog included) the block raises before it
    reaches its "No matching meals found" branch: [IndexError] at
    [recipe_embeddings[0]] with enhanced embeddings, [ValueError] from
    [cosine_similarity] without. *)
Theorem empty_candidates_raise (polarity : string → Q)
  (get_embedding : string → list Q) (cosine : list Q → list Q → Q)
  (df : DataFrame) (mood cuisine_choice : string) (enable_learning : bool)
  (prefs : UserProfile.Profile) :
  is_blank mood = false →
  rows (filter_by_cuisine df cuisine_choice) = [] →
  recommend polarity get_embedding cosine df mood cuisine_choice true
    enable_learning prefs = Raise IndexError
  ∧ recommend polarity get_embedding cosine df mood cuisine_choice false
      enable_learning prefs = Raise ValueError.
Proof.
  intros Hmood Hrows. unfold recommend. rewrite Hmood.
  destruct (MoodAnalyzer.extract_mood_tags polarity mood) as [tags sentiment].
  unfold embeddings. rewrite Hrows. simpl. done.
Qed.

Lemma empty_candidates_raise_witness :
  recommend sample_polarity sample_embedding sample_cosine sample_catalog
    "I'm stressed and tired" "Arabic" true true desi_fan = Raise IndexError
  ∧ recommend sample_polarity sample_embedding sample_cosine empty_catalog
      "I'm stressed and tired" "All" false true desi_fan = Raise ValueError.
Proof.
  split.
  - apply (empty_candidates_raise sample_polarity sample_embedding sample_cosine
             sample_catalog "I'm stressed and tired" "Arabic" true desi_fan);
      vm_compute; reflexivity.
  - apply (empty_candidates_raise sample_polarity sample_embedding sample_cosine
             empty_catalog "I'm stressed and tired" "All" true desi_fan);
      vm_compute; reflexivity.
Defined.

End AppFacts.

(** ** The user profile, continued *)

Module UserProfileMore.
Import UserProfile Session.

(** *** The feedback history *)

Lemma add_feedback_history now t r tags rd p :
  feedback_history (add_feedback now t r tags rd p)
  = let history := feedback_history p ++ [feedback_record now t r tags rd] in
    if decide (Config.max_history < length history)%nat
    then py_last_n Config.max_history history else history.
Proof.
  unfold add_feedback.
  destruct (decide (4 ≤ r)%Z); [|destruct (decide (r ≤ 2)%Z)]; reflexivity.
Qed.

(** X1. Whatever the profile and the rating, after [add_feedback] the
    history holds [min(n + 1, 50)] records, where [n] is its length before;
    the new record is its last one, and the history is the tail of the old
    history followed by the new record: the oldest records are the ones
    dropped. *)
Theorem history_is_capped now t r tags rd p :
  let history := feedback_history (add_feedback now t r tags rd p) in
  let new_record := feedback_record now t r tags rd in
  length history = Nat.min (S (length (feedback_history p))) 50
  ∧ last history = Some new_record
  ∧ history `suffix_of` (feedback_history p ++ [new_record]).
Proof.
  intros history new_record. subst history. rewrite add_feedback_history.
  fold new_record. cbv zeta. unfold Config.max_history, py_last_n.
  destruct (decide (50 < length (feedback_history p ++ [new_record]))%nat)
    as [Hlong|Hshort]; rewrite length_app in *; simpl in *.
  - split_and!.
    + rewrite length_drop, length_app. simpl. lia.
    + rewrite drop_app_le by lia. apply last_snoc.
    + apply suffix_drop.
  - split_and!; [lia|apply last_snoc|done].
Qed.

(** *** Mood patterns *)

Lemma learn_tag_lookup t m tag :
  ∃ titles, learn_tag t m tag !! tag = Some titles ∧ t ∈ titles.
Proof.
  unfold learn_tag. destruct (m !! tag) as [titles|] eqn:Hm.
  - rewrite Hm. simpl. destruct (py_in t titles) eqn:Hin.
    + exists titles. split; [done|by apply py_in_true].
    + exists (titles ++ [t]). rewrite lookup_insert_eq. split; [done|].
      apply elem_of_app. right. by apply list_elem_of_singleton.
  - rewrite lookup_insert_eq. simpl. exists [t]. rewrite lookup_insert_eq.
    split; [done|]. by apply list_elem_of_singleton.
Qed.

Lemma learn_tag_grows t m tag k titles :
  m !! k = Some titles →
  ∃ titles', learn_tag t m tag !! k = Some titles' ∧ titles `prefix_of` titles'.
Proof.
  intros Hk. unfold learn_tag. destruct (m !! tag) as [old|] eqn:Hm.
  - rewrite Hm. simpl. destruct (py_in t old) eqn:Hin; [by exists titles|].
    destruct (decide (tag = k)) as [->|Hne].
    + rewrite lookup_insert_eq. exists (old ++ [t]). split; [done|].
      assert (old = titles) as -> by congruence. by apply prefix_app_r.
    + rewrite lookup_insert_ne by done. by exists titles.
  - assert (tag ≠ k) by congruence.
    rewrite lookup_insert_eq. simpl.
    rewrite !lookup_insert_ne by done. by exists titles.
Qed.

Lemma learn_tag_distinct t m tag :
  patterns_distinct m → patterns_distinct (learn_tag t m tag).
Proof.
  intros Hm k titles. unfold learn_tag. destruct (m !! tag) as [old|] eqn:Hold.
  - rewrite Hold. simpl. destruct (py_in t old) eqn:Hin; [apply Hm|].
    destruct (decide (tag = k)) as [->|Hne].
    + rewrite lookup_insert_eq. intros [= <-]. apply NoDup_app. split_and!.
      * by eapply Hm.
      * intros x Hx. rewrite list_elem_of_singleton. intros ->.
        apply py_in_false in Hin. done.
      * apply NoDup_singleton.
    + rewrite lookup_insert_ne by done. apply Hm.
  - rewrite lookup_insert_eq. simpl.
    destruct (decide (tag = k)) as [->|Hne].
    + rewrite lookup_insert_eq. intros [= <-]. apply NoDup_singleton.
    + rewrite !lookup_insert_ne by done. apply Hm.
Qed.

Lemma learn_all_grows t tags m k titles :
  m !! k = Some titles →
  ∃ titles', fold_left (learn_tag t) tags m !! k = Some titles'
             ∧ titles `prefix_of` titles'.
Proof.
  revert m titles. induction tags as [|tag tags IH]; intros m titles Hk; simpl.
  - by exists titles.
  - destruct (learn_tag_grows t m tag k titles Hk) as (mid & Hmid & Hpre).
    destruct (IH _ _ Hmid) as (titles' & Hfin & Hpre').
    exists titles'. split; [done|]. by etrans.
Qed.

Lemma learn_all_lookup t tags m tag :
  tag ∈ tags →
  ∃ titles, fold_left (learn_tag t) tags m !! tag = Some titles ∧ t ∈ titles.
Proof.
  revert m. induction tags as [|tag' tags IH]; intros m Hin; simpl.
  - by apply elem_of_nil in Hin.
  - apply elem_of_cons in Hin as [->|Hin]; [|by apply IH].
    destruct (learn_tag_lookup t m tag') as (mid & Hmid & Ht).
    destruct (learn_all_grows t tags _ _ _ Hmid) as (titles & Hfin & Hpre).
    exists titles. split; [done|]. destruct Hpre as [more ->].
    apply elem_of_app. by left.
Qed.

Lemma learn_all_distinct t tags m :
  patterns_distinct m → patterns_distinct (fold_left (learn_tag t) tags m).
Proof.
  revert m. induction tags as [|tag tags IH]; intros m Hm; simpl; [done|].
  by apply IH, learn_tag_distinct.
Qed.

(** X2. A feedback rated 4 or more files the title under every one of its
    mood tags; what a tag already held stays at the front of its list, and
    lists without duplicates stay so.  A feedback rated 3 or less leaves
    [mood_patterns] as it was. *)
Theorem mood_patterns_learning now t r tags rd p :
  let p' := add_feedback now t r tags rd p in
  ((4 ≤ r)%Z →
     (∀ tag, tag ∈ tags →
        ∃ titles, mood_patterns p' !! tag = Some titles ∧ t ∈ titles)
     ∧ (∀ tag titles, mood_patterns p !! tag = Some titles →
          ∃ titles', mood_patterns p' !! tag = Some titles'
                     ∧ titles `prefix_of` titles')
     ∧ (patterns_distinct (mood_patterns p) →
        patterns_distinct (mood_patterns p')))
  ∧ ((r < 4)%Z → mood_patterns p' = mood_patterns p).
Proof.
  intros p'. subst p'. unfold add_feedback. split; intros Hr.
  - destruct (decide (4 ≤ r)%Z); [simpl|lia]. split_and!.
    + intros tag Htag. by apply learn_all_lookup.
    + intros tag titles Htag. by apply learn_all_grows.
    + apply learn_all_distinct.
  - destruct (decide (4 ≤ r)%Z); [lia|]. by destruct (decide (r ≤ 2)%Z).
Qed.

Lemma mood_patterns_learning_witness :
  (∃ titles,
     mood_patterns (record like_karahi (initialize_profile 0)) !! "comfort"
     = Some titles ∧ "Chicken Karahi" ∈ titles)
  ∧ mood_patterns (record dislike_karahi (initialize_profile 0))
    = mood_patterns (initialize_profile 0).
Proof.
  split.
  - refine (proj1 (proj1 (mood_patterns_learning 20 "Chicken Karahi" 5
                            ["comfort"] karahi (initialize_profile 0)) _)
              "comfort" _).
    + lia.
    + by apply list_elem_of_singleton.
  - apply (proj2 (mood_patterns_learning 10 "Chicken Karahi" 1
                    ["stress"] karahi (initialize_profile 0))).
    lia.
Defined.

(** *** Repeating a feedback *)

Lemma append_if_absent_twice x l :
  append_if_absent x (append_if_absent x l) = append_if_absent x l.
Proof.
  unfold append_if_absent at 1.
  assert (Hin : py_in x (append_if_absent x l) = true).
  { apply py_in_true, elem_of_append_if_absent. by left. }
  by rewrite Hin.
Qed.

Lemma remove_if_present_twice x l :
  NoDup l → remove_if_present x (remove_if_present x l) = remove_if_present x l.
Proof.
  intros Hl. unfold remove_if_present at 1.
  assert (Hout : py_in x (remove_if_present x l) = false).
  { by apply py_in_false, not_elem_of_remove_if_present. }
  by rewrite Hout.
Qed.

Lemma learn_tag_known t m tag titles :
  m !! tag = Some titles → t ∈ titles → learn_tag t m tag = m.
Proof.
  intros Hm Ht. unfold learn_tag. rewrite Hm. simpl. rewrite Hm. simpl.
  apply py_in_true in Ht. by rewrite Ht.
Qed.

Lemma learn_all_known t tags m :
  (∀ tag, tag ∈ tags → ∃ titles, m !! tag = Some titles ∧ t ∈ titles) →
  fold_left (learn_tag t) tags m = m.
Proof.
  induction tags as [|tag tags IH]; intros Hknown; simpl; [done|].
  destruct (Hknown tag) as (titles & Hm & Ht); [by left|].
  rewrite (learn_tag_known t m tag titles Hm Ht).
  apply IH. intros tag' Htag'. apply Hknown. by right.
Qed.

(** X3. On a profile whose two title lists have no duplicates, giving the
    same feedback a second time changes neither [liked_recipes] nor
    [disliked_recipes] nor [mood_patterns]: the title is kept once. *)
Theorem repeated_feedback_is_absorbed now1 now2 t r tags rd p :
  NoDup (liked_recipes p) → NoDup (disliked_recipes p) →
  let once := add_feedback now1 t r tags rd p in
  let twice := add_feedback now2 t r tags rd once in
  liked_recipes twice = liked_recipes once
  ∧ disliked_recipes twice = disliked_recipes once
  ∧ mood_patterns twice = mood_patterns once.
Proof.
  intros Hl Hd once twice. subst once twice. unfold add_feedback.
  destruct (decide (4 ≤ r)%Z); [|destruct (decide (r ≤ 2)%Z)]; simpl;
    [| |done].
  - split_and!.
    + apply append_if_absent_twice.
    + by apply remove_if_present_twice.
    + apply learn_all_known. intros tag Htag. by apply learn_all_lookup.
  - split_and!; [by apply remove_if_present_twice
                |apply append_if_absent_twice|done].
Qed.

Lemma repeated_feedback_is_absorbed_witness :
  liked_recipes (record like_karahi (record like_karahi (initialize_profile 0)))
  = liked_recipes (record like_karahi (initialize_profile 0)).
Proof.
  apply (repeated_feedback_is_absorbed 20 20 "Chicken Karahi" 5 ["comfort"]
           karahi (initialize_profile 0)); simpl; constructor.
Defined.

(** *** The personalized boost *)

Lemma clamp_range (b : Q) : -1 <= Qmax (-1) (Qmin 1 b) ∧ Qmax (-1) (Qmin 1 b) <= 1.
Proof.
  split; [apply Q.le_max_l|]. apply Q.max_lub; [done|apply Q.le_min_l].
Qed.

(** X4. For every session, time and recipe row the personalized boost lies
    in [-1, 1]. *)
Theorem personalized_boost_range now session recipe_row :
  -1 <= get_personalized_boost now session recipe_row
  ∧ get_personalized_boost now session recipe_row <= 1.
Proof.
  unfold get_personalized_boost. destruct session as [prefs|]; [|done].
  unfold personalized_boost. apply clamp_range.
Qed.

Lemma fresh_lookup now c :
  cuisine_preferences (initialize_profile now) !! c = Some 0
  ∨ cuisine_preferences (initialize_profile now) !! c = None.
Proof.
  simpl. rewrite !lookup_insert.
  repeat case_decide; first [by left|right; apply lookup_empty].
Qed.

(** X5. After [reset_profile], and on a session that was just
    initialised, every recipe row has a boost of zero at every time. *)
Theorem reset_profile_forgets now_reset now session recipe_row :
  reset_profile now_reset session = Some (initialize_profile now_reset)
  ∧ get_personalized_boost now (reset_profile now_reset session) recipe_row == 0.
Proof.
  split; [reflexivity|].
  unfold reset_profile, initialize_session, get_personalized_boost,
    personalized_boost, _get_recent_feedback.
  cbv zeta. change (feedback_history (initialize_profile now_reset)) with (@nil Feedback).
  change (liked_recipes (initialize_profile now_reset)) with (@nil string).
  change (disliked_recipes (initialize_profile now_reset)) with (@nil string).
  cbn [List.filter].
  assert (Hin : ∀ x, py_in x [] = false) by (intros x; by apply py_in_false, not_elem_of_nil).
  destruct (rd_title recipe_row) as [title_|]; rewrite ?Hin;
    (destruct (rd_cuisine recipe_row) as [c|]; [|reflexivity]);
    destruct (fresh_lookup now_reset c) as [-> | ->]; reflexivity.
Qed.

Lemma recent_likes_add (cuisine_ meal_time_ : option string)
  (likes : list Feedback) (start : Q) :
  start <= fold_left
             (fun b like =>
                if bool_decide (fb_cuisine like = cuisine_
                                ∧ fb_meal_time like = meal_time_)
                then b + (1 # 10) else b)
             likes start.
Proof.
  revert start. induction likes as [|like likes IH]; intros start; simpl.
  - apply Qle_refl.
  - eapply Qle_trans; [|apply IH]. destruct (bool_decide _); lra.
Qed.

(** X22. On a profile whose affinities lie in [-1, 1] and whose dislike
    list has no duplicates, a recipe that has just been rated 4 or more
    has a personalized boost of at least 0.2, at any later time. *)
Theorem liked_recipe_boost_floor now now' t r tags rd p recipe_row :
  bounded (cuisine_preferences p) →
  NoDup (disliked_recipes p) →
  (4 ≤ r)%Z →
  rd_title recipe_row = Some t →
  2 # 10 <= get_personalized_boost now'
              (Some (add_feedback now t r tags rd p)) recipe_row.
Proof.
  intros Hb Hnd Hr Ht. unfold get_personalized_boost, personalized_boost.
  set (p' := add_feedback now t r tags rd p).
  assert (Hliked : py_in t (liked_recipes p') = true).
  { apply py_in_true. subst p'. unfold add_feedback.
    destruct (decide (4 ≤ r)%Z); [simpl|lia].
    apply elem_of_append_if_absent. by left. }
  assert (Hdis : py_in t (disliked_recipes p') = false).
  { apply py_in_false. subst p'. unfold add_feedback.
    destruct (decide (4 ≤ r)%Z); [simpl|lia].
    by apply not_elem_of_remove_if_present. }
  assert (Hb' : bounded (cuisine_preferences p')).
  { subst p'. unfold add_feedback. destruct (decide (4 ≤ r)%Z); [simpl|lia].
    by apply UserProfileFacts.bounded_raise_cuisine. }
  cbv zeta. rewrite Ht, Hliked, Hdis.
  set (base := match rd_cuisine recipe_row with
               | Some c => match cuisine_preferences p' !! c with
                           | Some v => 0 + v * (3 # 10)
                           | None => 0
                           end
               | None => 0
               end).
  assert (Hbase : -3 # 10 <= base).
  { subst base. destruct (rd_cuisine recipe_row) as [c|]; [|done].
    destruct (cuisine_preferences p' !! c) as [v|] eqn:Hc; [|done].
    destruct (Hb' c v Hc) as [Hv _]. lra. }
  set (final := match _get_recent_feedback now' 30 p' with
                | [] => base + (1 # 2)
                | _ => _
                end).
  assert (Hfinal : base + (1 # 2) <= final).
  { subst final. destruct (_get_recent_feedback now' 30 p'); [apply Qle_refl|].
    apply recent_likes_add. }
  eapply Qle_trans; [|apply Q.le_max_r].
  apply Q.min_glb; [done|]. lra.
Qed.

Lemma liked_recipe_boost_floor_witness :
  2 # 10 <= get_personalized_boost 100
              (Some (add_feedback 20 "Chicken Karahi" 5 ["comfort"] karahi
                       (initialize_profile 0))) karahi_row.
Proof.
  apply (liked_recipe_boost_floor 20 100 "Chicken Karahi" 5 ["comfort"] karahi
           (initialize_profile 0) karahi_row).
  - apply UserProfileFacts.bounded_initialize.
  - constructor.
  - lia.
  - reflexivity.
Defined.

(** *** Recent feedback *)

Lemma filter_sublist {A} (f : A → bool) (l : list A) : sublist (List.filter f l) l.
Proof.
  induction l as [|x l IH]; simpl; [constructor|].
  destruct (f x); [by apply sublist_skip|by apply sublist_cons].
Qed.

Lemma filter_sublist_weaker {A} (f g : A → bool) (l : list A) :
  (∀ x, f x = true → g x = true) →
  sublist (List.filter f l) (List.filter g l).
Proof.
  intros Hfg. induction l as [|x l IH]; simpl; [constructor|].
  destruct (f x) eqn:Hf.
  - rewrite (Hfg x Hf). by apply sublist_skip.
  - destruct (g x); [by apply sublist_cons|done].
Qed.

(** X6. [_get_recent_feedback] returns, in history order, exactly the
    records whose timestamp parses and is later than [now - days]; records
    without a usable timestamp are left out; and a longer window returns at
    least the records of a shorter one. *)
Theorem recent_feedback_window now days p :
  let recent := _get_recent_feedback now days p in
  sublist recent (feedback_history p)
  ∧ (∀ f, f ∈ recent
          ↔ f ∈ feedback_history p
            ∧ ∃ t, fb_timestamp f = Some t ∧ (now - days * day < t)%Z)
  ∧ (∀ days', (days ≤ days')%Z →
       sublist recent (_get_recent_feedback now days' p)).
Proof.
  intros recent. subst recent. unfold _get_recent_feedback. split_and!.
  - apply filter_sublist.
  - intros f. rewrite list_elem_of_In, List.filter_In, <- list_elem_of_In.
    split; intros [Hf Ht]; (split; [done|]).
    + destruct (fb_timestamp f) as [t|]; [|done].
      exists t. split; [done|]. by apply bool_decide_eq_true in Ht.
    + destruct Ht as (t & -> & Hlt). by apply bool_decide_eq_true.
  - intros days' Hdays. apply filter_sublist_weaker. intros f.
    destruct (fb_timestamp f) as [t|]; [|done].
    rewrite !bool_decide_eq_true. unfold day. lia.
Qed.

Lemma recent_feedback_window_witness :
  sublist (_get_recent_feedback 100 7 (record like_karahi (initialize_profile 0)))
    (_get_recent_feedback 100 30 (record like_karahi (initialize_profile 0))).
Proof.
  apply (proj2 (proj2 (recent_feedback_window 100 7
                         (record like_karahi (initialize_profile 0))))).
  lia.
Defined.

End UserProfileMore.

(** ** Filters, continued *)

Module FiltersMore.
Import Filters.

(** X7. [filter_recipes] keeps the columns, keeps the rows in frame order,
    and keeps exactly the rows whose meal time equals the requested one up
    to case, whose cook time is at most the limit and, unless the diet is
    "Any", whose diet equals the requested one up to case. *)
Theorem filter_recipes_keeps (df : DataFrame) (diet_ meal_time_ : string)
  (cook_time_ : Z) :
  let out := filter_recipes df diet_ meal_time_ cook_time_ in
  columns out = columns df
  ∧ sublist (rows out) (rows df)
  ∧ ∀ r, r ∈ rows out
         ↔ r ∈ rows df
           ∧ (diet_ = "Any" ∨ lower (diet r) = lower diet_)
           ∧ lower (meal_time r) = lower meal_time_
           ∧ (cook_time r ≤ cook_time_)%Z.
Proof.
  intros out. subst out. unfold filter_recipes. simpl. split_and!; [done| |].
  - destruct (bool_decide (diet_ ≠ "Any")).
    + etrans; [apply UserProfileMore.filter_sublist|].
      etrans; apply UserProfileMore.filter_sublist.
    + etrans; apply UserProfileMore.filter_sublist.
  - intros r. rewrite list_elem_of_In, !List.filter_In, !bool_decide_eq_true.
    destruct (bool_decide (diet_ ≠ "Any")) eqn:Hd.
    + apply bool_decide_eq_true in Hd.
      rewrite List.filter_In, bool_decide_eq_true, <- list_elem_of_In.
      tauto.
    + apply bool_decide_eq_false in Hd. apply dec_stable in Hd.
      rewrite <- list_elem_of_In. tauto.
Qed.

Lemma filter_all {A} (f : A → bool) (l : list A) :
  (∀ x, f x = true) → List.filter f l = l.
Proof.
  intros Hf. induction l as [|x l IH]; cbn [List.filter]; [done|].
  by rewrite Hf, IH.
Qed.

Lemma kept_titles disliked (rs : list Row) :
  List.map title
    (match disliked with
     | [] => rs
     | _ => List.filter (fun r => negb (py_in (title r) disliked)) rs
     end)
  = List.filter (fun t => negb (py_in t disliked)) (List.map title rs).
Proof.
  assert (Hgen : List.map title
                   (List.filter (fun r => negb (py_in (title r) disliked)) rs)
                 = List.filter (fun t => negb (py_in t disliked))
                     (List.map title rs)).
  { induction rs as [|r rs IH]; simpl; [done|].
    destruct (negb (py_in (title r) disliked)); simpl; by rewrite IH. }
  destruct disliked as [|d disliked]; [|exact Hgen].
  rewrite <- Hgen. f_equal. symmetry. apply filter_all.
  intros r. by apply negb_true_iff, py_in_false, not_elem_of_nil.
Qed.

(** The rows [filter_with_preferences] returns: the kept rows of
    [filter_recipes], each with its cuisine boost. *)
Lemma filter_with_preferences_shape (df : DataFrame) (diet_ meal_time_ : string)
  (cook_time_ : Z) (prefs : UserProfile.Profile) :
  ∃ kept,
    List.map title kept
    = List.filter
        (fun t => negb (py_in t (UserProfile.disliked_recipes prefs)))
        (List.map title (rows (filter_recipes df diet_ meal_time_ cook_time_)))
    ∧ rows (filter_with_preferences df diet_ meal_time_ cook_time_ (Some prefs))
      = List.map
          (fun r => set_cuisine_boost
                      (default 0 (UserProfile.cuisine_preferences prefs
                                    !! cuisine r)) r)
          kept.
Proof.
  set (base := filter_recipes df diet_ meal_time_ cook_time_).
  exists (match UserProfile.disliked_recipes prefs with
          | [] => rows base
          | _ => List.filter
                   (fun r => negb (py_in (title r)
                                     (UserProfile.disliked_recipes prefs)))
                   (rows base)
          end).
  split; [apply kept_titles|].
  unfold filter_with_preferences. cbv zeta. fold base. cbn [rows].
  destruct (bool_decide (UserProfile.cuisine_preferences prefs = ∅)) eqn:He;
    [|by destruct (UserProfile.disliked_recipes prefs)].
  apply bool_decide_eq_true in He. rewrite He.
  destruct (UserProfile.disliked_recipes prefs);
    apply List.map_ext; intros r; by rewrite lookup_empty.
Qed.

Lemma filter_with_preferences_titles (df : DataFrame) (diet_ meal_time_ : string)
  (cook_time_ : Z) (prefs : UserProfile.Profile) :
  List.map title
    (rows (filter_with_preferences df diet_ meal_time_ cook_time_ (Some prefs)))
  = List.filter (fun t => negb (py_in t (UserProfile.disliked_recipes prefs)))
      (List.map title (rows (filter_recipes df diet_ meal_time_ cook_time_))).
Proof.
  destruct (filter_with_preferences_shape df diet_ meal_time_ cook_time_ prefs)
    as (kept & Hkept & Hout).
  rewrite Hout, List.map_map. simpl. exact Hkept.
Qed.



(** *** Feedback, then filtering *)

(** X21. A recipe rated 2 or less is absent from every later result of
    [filter_with_preferences] under the updated profile; a recipe rated 4
    or more, on a profile whose dislike list has no duplicates, is present
    whenever [filter_recipes] lets it through. *)
Theorem rated_recipe_and_filter now t r tags rd (p : UserProfile.Profile)
  (df : DataFrame) (diet_ meal_time_ : string) (cook_time_ : Z) :
  let p' := UserProfile.add_feedback now t r tags rd p in
  let shown :=
    List.map title
      (rows (filter_with_preferences df diet_ meal_time_ cook_time_ (Some p'))) in
  ((r ≤ 2)%Z → t ∉ shown)
  ∧ ((4 ≤ r)%Z → NoDup (UserProfile.disliked_recipes p) →
     t ∈ List.map title (rows (filter_recipes df diet_ meal_time_ cook_time_)) →
     t ∈ shown).
Proof.
  intros p' shown. subst shown. rewrite filter_with_preferences_titles.
  split.
  - intros Hr Hin. apply list_elem_of_In, List.filter_In in Hin as [_ Hin].
    apply negb_true_iff, py_in_false in Hin. apply Hin.
    subst p'. unfold UserProfile.add_feedback.
    destruct (decide (4 ≤ r)%Z); [lia|]. destruct (decide (r ≤ 2)%Z); [|lia].
    simpl. apply elem_of_append_if_absent. by left.
  - intros Hr Hnd Hin. apply list_elem_of_In, List.filter_In.
    split; [by apply list_elem_of_In|].
    apply negb_true_iff, py_in_false.
    subst p'. unfold UserProfile.add_feedback.
    destruct (decide (4 ≤ r)%Z); [|lia]. simpl.
    by apply not_elem_of_remove_if_present.
Qed.

Lemma rated_recipe_and_filter_witness :
  "Chicken Karahi"
  ∉ List.map title
      (rows (filter_with_preferences App.sample_catalog "Any" "Dinner" 60
               (Some (UserProfile.add_feedback 10 "Chicken Karahi" 1 ["stress"]
                        UserProfile.karahi (UserProfile.initialize_profile 0))))).
Proof.
  apply (proj1 (rated_recipe_and_filter 10 "Chicken Karahi" 1 ["stress"]
                  UserProfile.karahi (UserProfile.initialize_profile 0)
                  App.sample_catalog "Any" "Dinner" 60)).
  lia.
Defined.

End FiltersMore.

(** ** The recommendation block, continued *)

Module AppMore.
Import App.

Lemma StronglySorted_sublist {A} (R : A → A → Prop) (l k : list A) :
  sublist l k → StronglySorted R k → StronglySorted R l.
Proof.
  induction 1 as [|x l k Hsub IH|x l k Hsub IH]; intros Hk.
  - constructor.
  - apply StronglySorted_inv in Hk as [Hk Hx]. constructor; [by apply IH|].
    apply Forall_forall. intros y Hy.
    rewrite Forall_forall in Hx. apply Hx. by eapply elem_of_sublist.
  - apply StronglySorted_inv in Hk as [Hk _]. by apply IH.
Qed.

Lemma running_count_le_length cu (l : list Row) :
  (Filters.running_count cu l ≤ Z.of_nat (length l))%Z.
Proof.
  unfold Filters.running_count.
  pose proof (sublist_length _ _ (UserProfileMore.filter_sublist
                (fun r => bool_decide (cuisine r = cu)) l)).
  lia.
Qed.

(** What the diversity filter returns under any cap. *)
Lemma diversity_result (recs : list Row) (cap : Z) :
  (0 ≤ cap)%Z →
  let result := Filters.apply_diversity_filter recs cap in
  sublist result recs
  ∧ (length result ≤ max 3 (Z.to_nat cap))%nat
  ∧ (∀ cu, (Filters.running_count cu result ≤ cap)%Z)
  ∧ (recs ≠ [] → 0 < cap → result ≠ [])%Z.
Proof.
  intros Hcap result. subst result. unfold Filters.apply_diversity_filter.
  destruct (decide (Z.of_nat (length recs) ≤ cap)%Z) as [Hshort|Hlong].
  - split_and!; [done|lia| |done].
    intros cu. pose proof (running_count_le_length cu recs). lia.
  - rewrite FiltersFacts.diversity_loop_walk
      by (apply FiltersFacts.counts_agree_start || simpl; lia).
    destruct (FiltersFacts.walk_shape cap recs []) as (more & Heq & Hsub & Hlen & Hcnt).
    simpl in Heq, Hlen, Hcnt. rewrite Heq. split_and!; [done|lia| |].
    + intros cu. specialize (Hcnt cu).
      unfold Filters.running_count in Hcnt at 2. simpl in Hcnt. lia.
    + intros Hne Hpos. rewrite <- Heq. destruct recs as [|r recs]; [done|].
      cbn [Filters.walk length app].
      destruct (decide (3 ≤ 0)%nat); [lia|].
      change (Filters.running_count (cuisine r) []) with 0%Z.
      destruct (decide (0 < cap)%Z); [|lia].
      destruct (FiltersFacts.walk_shape cap recs [r]) as (more' & Heq' & _).
      rewrite Heq'. discriminate.
Qed.

Lemma rank_unfold enable_learning prefs df :
  rank enable_learning prefs df
  = let boosted := enable_learning && has_column "cuisine_boost" df in
    let sort_column := if boosted then "final_score" else "similarity" in
    let scored :=
      if boosted
      then List.map (fun r => set_final_score (similarity r + cuisine_boost r) r)
             (rows df)
      else rows df in
    (sort_column,
     Filters.apply_diversity_filter
       (take 6 (sort_values (sort_key sort_column) scored)) 2).
Proof.
  unfold rank. by destruct (enable_learning && has_column "cuisine_boost" df).
Qed.

Lemma rank_returns_top_rows_core enable_learning prefs df :
  (length (snd (rank enable_learning prefs df)) ≤ 3)%nat
  ∧ ∀ cu, (Filters.running_count cu (snd (rank enable_learning prefs df)) ≤ 2)%Z.
Proof.
  rewrite rank_unfold. cbv zeta. cbn [snd].
  set (boosted := enable_learning && has_column "cuisine_boost" df).
  set (col := if boosted then "final_score" else "similarity").
  set (scored := if boosted then _ else _).
  destruct (diversity_result (take 6 (sort_values (sort_key col) scored)) 2)
    as (_ & Hlen & Hcnt & _); [lia|].
  split; [simpl in Hlen; lia|exact Hcnt].
Qed.

(** X9. Whatever the frame, the profile and the learning switch, [rank]
    returns at most three rows, at most two of any cuisine, in decreasing
    order of the sort column.  The sort column is [final_score] exactly
    when learning is enabled and the frame has a [cuisine_boost] column,
    and then every returned row is a frame row with [final_score] set to
    its similarity plus its cuisine boost; otherwise the column is
    [similarity] and every returned row is a frame row as it is. *)
Theorem rank_returns_top_rows enable_learning prefs df :
  let sort_column := fst (rank enable_learning prefs df) in
  let top_matches := snd (rank enable_learning prefs df) in
  (length top_matches ≤ 3)%nat
  ∧ (∀ cu, (Filters.running_count cu top_matches ≤ 2)%Z)
  ∧ StronglySorted
      (fun a b => sort_key sort_column b <= sort_key sort_column a) top_matches
  ∧ (enable_learning && has_column "cuisine_boost" df = true →
     sort_column = "final_score"
     ∧ ∀ r, r ∈ top_matches →
         ∃ r0, r0 ∈ rows df
               ∧ r = set_final_score (similarity r0 + cuisine_boost r0) r0)
  ∧ (enable_learning && has_column "cuisine_boost" df = false →
     sort_column = "similarity" ∧ ∀ r, r ∈ top_matches → r ∈ rows df).
Proof.
  intros sort_column top_matches. subst sort_column top_matches.
  rewrite rank_unfold. cbv zeta. cbn [fst snd].
  set (boosted := enable_learning && has_column "cuisine_boost" df).
  set (col := if boosted then "final_score" else "similarity").
  set (scored := if boosted then _ else _).
  destruct (diversity_result (take 6 (sort_values (sort_key col) scored)) 2)
    as (Hsub & Hlen & Hcnt & _); [lia|].
  assert (Hin : ∀ r, r ∈ Filters.apply_diversity_filter
                          (take 6 (sort_values (sort_key col) scored)) 2 →
                     r ∈ scored).
  { intros r Hr. eapply elem_of_sublist in Hr; [|exact Hsub].
    eapply elem_of_sublist in Hr; [|apply sublist_take].
    by rewrite (AppFacts.sort_values_Permutation (sort_key col) scored) in Hr. }
  split_and!.
  - simpl in Hlen. lia.
  - exact Hcnt.
  - eapply StronglySorted_sublist; [exact Hsub|].
    eapply StronglySorted_sublist; [apply sublist_take|].
    apply AppFacts.sort_values_sorted.
  - intros Hb. subst col scored. rewrite Hb in *. split; [done|].
    intros r Hr. apply Hin in Hr.
    apply list_elem_of_In, List.in_map_iff in Hr as (r0 & <- & Hr0).
    exists r0. split; [by apply list_elem_of_In|done].
  - intros Hb. subst col scored. rewrite Hb in *. split; [done|].
    intros r Hr. by apply Hin.
Qed.

Lemma rank_returns_top_rows_witness :
  (fst (rank true desi_fan sample_catalog) = "similarity"
   ∧ ∀ r, r ∈ snd (rank true desi_fan sample_catalog) → r ∈ rows sample_catalog)
  ∧ fst (rank true desi_fan
           (Filters.filter_with_preferences sample_catalog "Any" "Dinner" 60
              (Some desi_fan)))
    = "final_score".
Proof.
  split.
  - apply (proj2 (proj2 (proj2 (proj2
             (rank_returns_top_rows true desi_fan sample_catalog))))).
    vm_compute. reflexivity.
  - apply (proj1 (proj2 (proj2 (proj2
             (rank_returns_top_rows true desi_fan
                (Filters.filter_with_preferences sample_catalog "Any" "Dinner"
                   60 (Some desi_fan))))))).
    vm_compute. reflexivity.
Defined.

(** *** The outcome of the block *)

Lemma sort_values_nonempty key rs : rs ≠ [] → sort_values key rs ≠ [].
Proof.
  intros Hne Hnil.
  pose proof (Permutation_length (AppFacts.sort_values_Permutation key rs)) as Hlen.
  rewrite Hnil in Hlen. destruct rs; [done|discriminate].
Qed.

Lemma rank_nonempty enable_learning prefs df :
  rows df ≠ [] → snd (rank enable_learning prefs df) ≠ [].
Proof.
  intros Hrows. rewrite rank_unfold. cbv zeta. cbn [snd].
  set (boosted := enable_learning && has_column "cuisine_boost" df).
  set (col := if boosted then "final_score" else "similarity").
  set (scored := if boosted then _ else _).
  assert (Hscored : scored ≠ []).
  { subst scored. destruct boosted; [|done].
    destruct (rows df); [done|discriminate]. }
  apply (diversity_result (take 6 (sort_values (sort_key col) scored)) 2);
    [lia| |lia].
  pose proof (sort_values_nonempty (sort_key col) scored Hscored).
  destruct (sort_values (sort_key col) scored); [done|discriminate].
Qed.

Lemma assign_similarity_nonempty {A} (rs : list Row) (es : list A)
  (f : A → Q) :
  rs ≠ [] → length es = length rs →
  assign_similarity rs (List.map f es) ≠ [].
Proof.
  intros Hne Hlen. destruct rs as [|r rs]; [done|].
  destruct es as [|e es]; [discriminate|]. discriminate.
Qed.

Lemma embeddings_length get_embedding enhanced mood df recipe_embeddings
  mood_embedding :
  embeddings get_embedding enhanced mood df = Ok (recipe_embeddings, mood_embedding) →
  length recipe_embeddings = length (rows df).
Proof.
  unfold embeddings. destruct enhanced.
  - destruct (rows df) as [|r rs]; [discriminate|]. cbn [List.map].
    destruct (np_zeros _) as [zeros|e]; [|discriminate].
    cbn. intros [= <- _]. cbn. by rewrite length_map.
  - intros [= <- _]. by rewrite length_map.
Qed.

(** Once the vectors are there and there is at least one recipe, the block
    returns recommendations. *)
Lemma recommend_scored polarity get_embedding cosine df mood cuisine_choice
  enhanced enable_learning prefs recipe_embeddings mood_embedding :
  is_blank mood = false →
  embeddings get_embedding enhanced mood (filter_by_cuisine df cuisine_choice)
  = Ok (recipe_embeddings, mood_embedding) →
  recipe_embeddings ≠ [] →
  ∃ sort_column top_matches,
    recommend polarity get_embedding cosine df mood cuisine_choice enhanced
      enable_learning prefs
    = Ok (Recommendations
            (fst (MoodAnalyzer.extract_mood_tags polarity mood))
            (snd (MoodAnalyzer.extract_mood_tags polarity mood))
            sort_column top_matches)
    ∧ top_matches ≠ []
    ∧ (length top_matches ≤ 3)%nat
    ∧ ∀ cu, (Filters.running_count cu top_matches ≤ 2)%Z.
Proof.
  intros Hmood Hemb Hne. unfold recommend. rewrite Hmood.
  destruct (MoodAnalyzer.extract_mood_tags polarity mood) as [tags sentiment].
  rewrite Hemb. cbn [mbind result_bind].
  pose proof (embeddings_length _ _ _ _ _ _ Hemb) as Hlen.
  unfold cosine_similarity.
  destruct recipe_embeddings as [|e es] eqn:Hre; [done|]. rewrite <- Hre in *.
  cbn [mbind result_bind].
  set (scored := {| columns := _; rows := _ |}).
  assert (Hrows : rows scored ≠ []).
  { subst scored. cbn [rows]. apply assign_similarity_nonempty; [|done].
    intros Hnil. rewrite Hnil, Hre in Hlen. discriminate. }
  pose proof (rank_nonempty enable_learning prefs scored Hrows) as Htop.
  pose proof (rank_returns_top_rows_core enable_learning prefs scored) as [H3 H2].
  destruct (rank enable_learning prefs scored) as [sort_column top_matches].
  cbn [snd] in *. exists sort_column, top_matches.
  destruct top_matches; [done|]. split_and!; done.
Qed.

Lemma length_enhanced_embedding get_embedding d c m ct :
  length (Embedder.get_enhanced_embedding get_embedding d c m ct)
  = (length (get_embedding d) + 7)%nat.
Proof.
  unfold Embedder.get_enhanced_embedding, Embedder.scale.
  rewrite EmbedderFacts.cuisine_lookup, EmbedderFacts.time_lookup.
  rewrite !length_app, !length_map, EmbedderFacts.length_cuisineVector,
    EmbedderFacts.length_timeVector.
  simpl. lia.
Qed.

(** With an embedding model of fixed dimension the vectors are always
    there when a recipe is. *)
Lemma embeddings_ok get_embedding enhanced mood df D :
  rows df ≠ [] →
  (∀ text, length (get_embedding text) = D) →
  ∃ recipe_embeddings mood_embedding,
    embeddings get_embedding enhanced mood df
    = Ok (recipe_embeddings, mood_embedding)
    ∧ recipe_embeddings ≠ []
    ∧ Forall (fun e => length e = length mood_embedding) recipe_embeddings
    ∧ length mood_embedding = (if enhanced then D + 7 else D)%nat.
Proof.
  intros Hrows Hdim. unfold embeddings. destruct enhanced.
  - destruct (rows df) as [|r rs] eqn:Hr; [done|]. cbn [List.map].
    rewrite length_enhanced_embedding, !Hdim. unfold np_zeros.
    destruct (decide (Z.of_nat (D + 7) - Z.of_nat D < 0)%Z) as [Hneg|_]; [lia|].
    cbn [mbind result_bind]. eexists _, _. split_and!; [done|done| |].
    + replace (Z.to_nat (Z.of_nat (D + 7) - Z.of_nat D)) with 7%nat by lia.
      change (?x :: List.map ?f rs) with (List.map f (r :: rs)).
      apply Forall_forall. intros e He.
      apply list_elem_of_In, List.in_map_iff in He as (r0 & <- & _).
      rewrite length_enhanced_embedding, length_app, length_replicate, !Hdim. done.
    + rewrite length_app, length_replicate, Hdim. lia.
  - eexists _, _. split_and!; [done| | |done].
    + destruct (rows df); [done|discriminate].
    + apply Forall_forall. intros e He.
      apply list_elem_of_In, List.in_map_iff in He as (r0 & <- & _).
      by rewrite !Hdim.
Qed.



(** X10. With a mood that is not blank, at least one recipe left after the
    cuisine selection and an embedding model of fixed dimension, the block
    raises nothing in either embedding mode: it returns between one and
    three recommendations, at most two of any cuisine, together with the
    tags and the sentiment of [extract_mood_tags]. *)
Theorem recommend_returns_matches polarity get_embedding cosine df mood
  cuisine_choice enhanced enable_learning prefs (D : nat) :
  is_blank mood = false →
  rows (filter_by_cuisine df cuisine_choice) ≠ [] →
  (∀ text, length (get_embedding text) = D) →
  ∃ sort_column top_matches,
    recommend polarity get_embedding cosine df mood cuisine_choice enhanced
      enable_learning prefs
    = Ok (Recommendations
            (fst (MoodAnalyzer.extract_mood_tags polarity mood))
            (snd (MoodAnalyzer.extract_mood_tags polarity mood))
            sort_column top_matches)
    ∧ top_matches ≠ []
    ∧ (length top_matches ≤ 3)%nat
    ∧ ∀ cu, (Filters.running_count cu top_matches ≤ 2)%Z.
Proof.
  intros Hmood Hrows Hdim.
  destruct (embeddings_ok get_embedding enhanced mood
              (filter_by_cuisine df cuisine_choice) D Hrows Hdim)
    as (recipe_embeddings & mood_embedding & Hemb & Hne & _ & _).
  by eapply recommend_scored.
Qed.

Lemma recommend_returns_matches_witness :
  ∃ sort_column top_matches,
    recommend sample_polarity sample_embedding sample_cosine sample_catalog
      "I'm stressed and tired" "All" true true desi_fan
    = Ok (Recommendations
            (fst (MoodAnalyzer.extract_mood_tags sample_polarity
                    "I'm stressed and tired"))
            (snd (MoodAnalyzer.extract_mood_tags sample_polarity
                    "I'm stressed and tired"))
            sort_column top_matches)
    ∧ top_matches ≠ []
    ∧ (length top_matches ≤ 3)%nat
    ∧ ∀ cu, (Filters.running_count cu top_matches ≤ 2)%Z.
Proof.
  apply (recommend_returns_matches sample_polarity sample_embedding
           sample_cosine sample_catalog "I'm stressed and tired" "All" true
           true desi_fan 1).
  - vm_compute. reflexivity.
  - vm_compute. discriminate.
  - intros text. unfold sample_embedding. by repeat case_decide.
Defined.

(** X11. The block never reaches its "No matching meals found" branch:
    whatever the inputs, it shows the missing-mood warning, raises, or
    returns recommendations. *)
Theorem no_matching_meals_is_dead polarity get_embedding cosine df mood
  cuisine_choice enhanced enable_learning prefs tags sentiment :
  recommend polarity get_embedding cosine df mood cuisine_choice enhanced
    enable_learning prefs
  ≠ Ok (NoMatchingMeals tags sentiment).
Proof.
  destruct (is_blank mood) eqn:Hmood.
  { unfold recommend. rewrite Hmood. discriminate. }
  destruct (embeddings get_embedding enhanced mood
              (filter_by_cuisine df cuisine_choice))
    as [[recipe_embeddings mood_embedding]|e] eqn:Hemb.
  - destruct recipe_embeddings as [|v vs] eqn:Hre.
    + unfold recommend. rewrite Hmood.
      destruct (MoodAnalyzer.extract_mood_tags polarity mood).
      rewrite Hemb. cbn. discriminate.
    + destruct (recommend_scored polarity get_embedding cosine df mood
                  cuisine_choice enhanced enable_learning prefs (v :: vs)
                  mood_embedding Hmood Hemb)
        as (col & top & -> & _); [done|discriminate].
  - unfold recommend. rewrite Hmood.
    destruct (MoodAnalyzer.extract_mood_tags polarity mood).
    rewrite Hemb. cbn. discriminate.
Qed.

End AppMore.

(** ** Mood analysis, continued *)

Module MoodAnalyzerMore.
Import MoodAnalyzer.

(** *** Detection of categories *)

Lemma scan_keywords_matches (text : string) (keywords : list string)
  (acc : Q * nat) :
  snd (fold_left
         (fun (acc : Q * nat) keyword =>
            let '(category_score, matches) := acc in
            if contains keyword text
            then (category_score + _get_keyword_intensity text keyword, S matches)
            else acc)
         keywords acc)
  = (snd acc + length (List.filter (fun k => contains k text) keywords))%nat.
Proof.
  revert acc. induction keywords as [|k ks IH]; intros [score matches]; simpl.
  - lia.
  - destruct (contains k text); rewrite IH; simpl; lia.
Qed.

Lemma scan_keywords_detects (text : string) (keywords : list string) :
  (0 < snd (scan_keywords text keywords))%nat
  ↔ existsb (fun k => contains k text) keywords = true.
Proof.
  unfold scan_keywords. rewrite scan_keywords_matches. simpl.
  induction keywords as [|k ks IH]; simpl; [split; [lia|done]|].
  destruct (contains k text); simpl; [split; [done|lia]|exact IH].
Qed.

Lemma scan_categories_detects (text : string)
  (table : list (string * list string)) (acc : list string * list (string * Q)) :
  fst (fold_left
         (fun (acc : list string * list (string * Q))
              (entry : string * list string) =>
            let '(detected_tags, tag_scores) := acc in
            let '(category, keywords) := entry in
            let '(category_score, matches) := scan_keywords text keywords in
            if decide (0 < matches)%nat
            then (detected_tags ++ [category],
                  tag_scores
                    ++ [(category,
                         category_score / inject_Z (Z.of_nat (max matches 1)))])
            else acc)
         table acc)
  = fst acc
      ++ List.map fst
           (List.filter
              (fun entry => existsb (fun k => contains k text) (snd entry))
              table).
Proof.
  revert acc. induction table as [|[category keywords] table IH];
    intros [tags scores]; simpl; [by rewrite app_nil_r|].
  pose proof (scan_keywords_detects text keywords) as Hdet.
  destruct (scan_keywords text keywords) as [score matches]. simpl in Hdet.
  destruct (decide (0 < matches)%nat) as [Hpos|Hzero].
  - rewrite IH. simpl. rewrite (proj1 Hdet Hpos). simpl.
    by rewrite <- app_assoc.
  - rewrite IH. simpl.
    destruct (existsb (fun k => contains k text) keywords) eqn:He; [|done].
    exfalso. apply Hzero, Hdet. done.
Qed.

(** X12. The category tags are the names of the categories, in table
    order, of which at least one keyword occurs in the text; the intensity
    scores play no part in the detection. *)
Theorem category_detected_by_keyword (mood_text_lower : string) :
  category_tags mood_text_lower
  = List.map fst
      (List.filter
         (fun entry => existsb (fun k => contains k mood_text_lower) (snd entry))
         emotion_keywords)
  ∧ ∀ category, category ∈ category_tags mood_text_lower
      ↔ ∃ keywords keyword,
          (category, keywords) ∈ emotion_keywords
          ∧ keyword ∈ keywords
          ∧ contains keyword mood_text_lower = true.
Proof.
  assert (Heq : category_tags mood_text_lower
                = List.map fst
                    (List.filter
                       (fun entry =>
                          existsb (fun k => contains k mood_text_lower) (snd entry))
                       emotion_keywords)).
  { unfold category_tags, scan_categories.
    by rewrite scan_categories_detects. }
  split; [exact Heq|]. intros category. rewrite Heq.
  rewrite list_elem_of_In, List.in_map_iff. split.
  - intros ([c keywords] & <- & Hin). apply List.filter_In in Hin as [Hin He].
    apply List.existsb_exists in He as (keyword & Hk & Hc).
    exists keywords, keyword. by rewrite !list_elem_of_In.
  - intros (keywords & keyword & Hin & Hk & Hc).
    exists (category, keywords). split; [done|].
    apply List.filter_In. split; [by apply list_elem_of_In|].
    apply List.existsb_exists. exists keyword. by rewrite <- list_elem_of_In.
Qed.

(** *** The returned tags *)

(** The twelve labels [extract_mood_tags] can return. *)
Lemma detected_tags_labels polarity mood_text :
  sublist (detected_tags polarity mood_text)
    (List.map fst emotion_keywords ++ ["negative"; "positive"; "neutral"]).
Proof.
  unfold detected_tags. apply sublist_app;
    [apply MoodAnalyzerFacts.category_tags_sublist
    |apply MoodAnalyzerFacts.sentiment_tags_sublist].
Qed.

(** X13. For every text [extract_mood_tags] returns at most five tags,
    all different, each one of the nine category names or of 'negative',
    'positive', 'neutral', in that order; the empty text gives no tag and
    the sentiment 0.0, any other text the sentiment of the estimator. *)
Theorem extract_mood_tags_shape (polarity : string → Q) (mood_text : string) :
  let tags := fst (extract_mood_tags polarity mood_text) in
  let sentiment := snd (extract_mood_tags polarity mood_text) in
  (length tags ≤ 5)%nat
  ∧ NoDup tags
  ∧ sublist tags
      ["stress"; "comfort"; "energy"; "calm"; "social"; "indulgent"; "healthy";
       "quick"; "cozy"; "negative"; "positive"; "neutral"]
  ∧ (mood_text = "" → tags = [] ∧ sentiment = 0)
  ∧ (mood_text ≠ "" → sentiment = polarity mood_text).
Proof.
  unfold extract_mood_tags. destruct (decide (mood_text = "")) as [->|Hne];
    cbn [fst snd].
  - split_and!; [simpl; lia|constructor|apply sublist_nil_l|done|done].
  - rewrite MoodAnalyzerFacts.unique_from_NoDup;
      [|apply MoodAnalyzerFacts.detected_tags_NoDup
       |intros tag _; apply not_elem_of_empty].
    split_and!; [| | |done|done].
    + rewrite length_take. lia.
    + eapply sublist_NoDup; [apply MoodAnalyzerFacts.detected_tags_NoDup|].
      apply sublist_take.
    + etrans; [apply sublist_take|]. apply (detected_tags_labels polarity).
Qed.

Lemma extract_mood_tags_shape_witness :
  (fst (extract_mood_tags (fun _ => 7 # 10) "") = []
   ∧ snd (extract_mood_tags (fun _ => 7 # 10) "") = 0)
  ∧ snd (extract_mood_tags (fun _ => 7 # 10) "so happy") = 7 # 10.
Proof.
  split.
  - apply (proj1 (proj2 (proj2 (proj2
             (extract_mood_tags_shape (fun _ => 7 # 10) ""))))).
    reflexivity.
  - apply (proj2 (proj2 (proj2 (proj2
             (extract_mood_tags_shape (fun _ => 7 # 10) "so happy"))))).
    discriminate.
Defined.

(** *** Intensities *)

Lemma length_substring_le (s : string) (start len : nat) :
  (len ≤ 20)%nat → (String.length (String.substring start len s) ≤ 20)%nat.
Proof.
  intros Hlen.
  assert (Hgen : ∀ s start len,
            (String.length (String.substring start len s) ≤ len)%nat).
  { clear. induction s as [|c s IH]; intros start len.
    - destruct start, len; simpl; lia.
    - destruct start as [|start]; simpl.
      + destruct len as [|len]; simpl; [lia|]. specialize (IH 0%nat len). lia.
      + apply IH. }
  specialize (Hgen s start len). lia.
Qed.

(** X14. The intensity of a keyword is 1.0 when the keyword does not occur
    in the text; otherwise it is 1.0 or the multiplier of a modifier that
    occurs in the (at most 20) characters before the first occurrence of
    the keyword; in every case it is at most 2.0. *)
Theorem keyword_intensity_values (text keyword : string) :
  let intensity := _get_keyword_intensity text keyword in
  (find keyword text = None → intensity = 1)
  ∧ (intensity = 1
     ∨ ∃ keyword_pos modifier,
         find keyword text = Some keyword_pos
         ∧ (modifier, intensity) ∈ intensity_words
         ∧ contains modifier (before_keyword text keyword_pos) = true)
  ∧ (String.length (match find keyword text with
                    | Some keyword_pos => before_keyword text keyword_pos
                    | None => ""
                    end) ≤ 20)%nat
  ∧ intensity <= 2.
Proof.
  intros intensity. subst intensity.
  unfold _get_keyword_intensity, keyword_intensity_with.
  assert (Hval : match find keyword text with
                 | Some keyword_pos =>
                     strongest_modifier intensity_words
                       (before_keyword text keyword_pos)
                 | None => 1
                 end = 1
                 ∨ ∃ keyword_pos modifier,
                     find keyword text = Some keyword_pos
                     ∧ (modifier,
                        match find keyword text with
                        | Some keyword_pos =>
                            strongest_modifier intensity_words
                              (before_keyword text keyword_pos)
                        | None => 1
                        end) ∈ intensity_words
                     ∧ contains modifier (before_keyword text keyword_pos) = true).
  { destruct (find keyword text) as [pos|]; [|by left].
    destruct (MoodAnalyzerFacts.modifier_loop_value intensity_words
                (before_keyword text pos) 1)
      as [Heq|(modifier & Hin & Hfound)]; [by left|].
    right. by exists pos, modifier. }
  split_and!.
  - by intros ->.
  - exact Hval.
  - destruct (find keyword text) as [pos|]; [|simpl; lia].
    unfold before_keyword. apply length_substring_le. lia.
  - destruct Hval as [->|(pos & modifier & _ & Hin & _)]; [done|].
    revert Hin. generalize (match find keyword text with
                            | Some keyword_pos =>
                                strongest_modifier intensity_words
                                  (before_keyword text keyword_pos)
                            | None => 1
                            end).
    intros q Hin. unfold intensity_words in Hin.
    repeat (apply elem_of_cons in Hin as [[= _ ->]|Hin]; [done|]).
    by apply elem_of_nil in Hin.
Qed.

Lemma keyword_intensity_values_witness :
  _get_keyword_intensity "i am very tired" "stressed" = 1.
Proof.
  apply (proj1 (keyword_intensity_values "i am very tired" "stressed")).
  vm_compute. reflexivity.
Defined.

(** *** Removing duplicates *)

Lemma unique_from_spec (seen : gset string) (tags : list string) :
  NoDup (unique_from seen tags)
  ∧ sublist (unique_from seen tags) tags
  ∧ ∀ tag, tag ∈ unique_from seen tags ↔ tag ∈ tags ∧ tag ∉ seen.
Proof.
  revert seen. induction tags as [|t tags IH]; intros seen; simpl.
  - split_and!; [constructor|constructor|]. intros tag. rewrite elem_of_nil. tauto.
  - destruct (decide (t ∈ seen)) as [Hin|Hout].
    + destruct (IH seen) as (Hnd & Hsub & Hmem). split_and!; [done|by constructor|].
      intros tag. rewrite Hmem, elem_of_cons. split; [tauto|].
      intros [[->|?] ?]; tauto.
    + destruct (IH ({[t]} ∪ seen)) as (Hnd & Hsub & Hmem).
      split_and!; [|by constructor|].
      * constructor; [|done]. rewrite Hmem, elem_of_union, elem_of_singleton. tauto.
      * intros tag. rewrite !elem_of_cons, Hmem, elem_of_union, elem_of_singleton.
        destruct (decide (tag = t)) as [->|]; tauto.
Qed.

Lemma unique_from_snoc (seen : gset string) (tags : list string) (tag : string) :
  unique_from seen (tags ++ [tag])
  = unique_from seen tags
      ++ (if decide (tag ∈ tags ∨ tag ∈ seen) then [] else [tag]).
Proof.
  revert seen. induction tags as [|t tags IH]; intros seen; simpl.
  - destruct (decide (tag ∈ seen)) as [Hin|Hout].
    + destruct (decide (tag ∈ [] ∨ tag ∈ seen)) as [_|Hno]; [done|].
      exfalso. apply Hno. by right.
    + destruct (decide (tag ∈ [] ∨ tag ∈ seen)) as [[Hnil|Hin]|_]; [|done|done].
      by apply elem_of_nil in Hnil.
  - destruct (decide (t ∈ seen)) as [Hin|Hout]; rewrite IH.
    + f_equal. apply decide_ext. rewrite elem_of_cons.
      split; [tauto|]. intros [[->|?]|?]; tauto.
    + simpl. do 2 f_equal. apply decide_ext.
      rewrite elem_of_cons, elem_of_union, elem_of_singleton. tauto.
Qed.

(** X15. The duplicate-removing loop of [extract_mood_tags] returns, for
    any list of tags, a list without duplicates that has the same members
    in their input order; a tag added at the end of the input is added at
    the end of the result when it is new and changes nothing when it is
    not, so each tag stays at its first occurrence. *)
Theorem unique_keeps_first_occurrences (tags : list string) (tag : string) :
  NoDup (unique_from ∅ tags)
  ∧ sublist (unique_from ∅ tags) tags
  ∧ (∀ t, t ∈ unique_from ∅ tags ↔ t ∈ tags)
  ∧ unique_from ∅ (tags ++ [tag])
    = if decide (tag ∈ tags) then unique_from ∅ tags
      else unique_from ∅ tags ++ [tag].
Proof.
  destruct (unique_from_spec ∅ tags) as (Hnd & Hsub & Hmem).
  split_and!; [done|done| |].
  - intros t. rewrite Hmem. split; [tauto|]. intros ?. split; [done|].
    apply not_elem_of_empty.
  - rewrite unique_from_snoc.
    destruct (decide (tag ∈ tags)) as [Hin|Hout].
    + destruct (decide (tag ∈ tags ∨ tag ∈ (∅ : gset string))) as [_|Hno].
      * by rewrite app_nil_r.
      * exfalso. apply Hno. by left.
    + destruct (decide (tag ∈ tags ∨ tag ∈ (∅ : gset string)))
        as [[?|Hempty]|_]; [done| |done].
      by apply not_elem_of_empty in Hempty.
Qed.

(** *** The summary *)

(** X16. The descriptor of [get_mood_summary] is 'positive' exactly above
    0.3, 'challenging' exactly below -0.3 and 'balanced' in between, so it
    agrees with the sentiment tag whenever [extract_mood_tags] appends one;
    for a sentiment in (0.3, 0.4] or [-0.4, -0.3) the summary says
    'positive' or 'challenging' although no sentiment tag is appended. *)
Theorem summary_descriptor_bands (s : Q) :
  (MoodSummary.sentiment_desc s = "positive" ↔ 3 # 10 < s)
  ∧ (MoodSummary.sentiment_desc s = "challenging" ↔ s < -3 # 10)
  ∧ (MoodSummary.sentiment_desc s = "balanced" ↔ -3 # 10 <= s ∧ s <= 3 # 10)
  ∧ (sentiment_tags s = ["positive"] → MoodSummary.sentiment_desc s = "positive")
  ∧ (sentiment_tags s = ["negative"] →
     MoodSummary.sentiment_desc s = "challenging")
  ∧ (sentiment_tags s = ["neutral"] → MoodSummary.sentiment_desc s = "balanced")
  ∧ ((3 # 10 < s ∧ s <= 4 # 10) ∨ (-4 # 10 <= s ∧ s < -3 # 10) →
     sentiment_tags s = [] ∧ MoodSummary.sentiment_desc s ≠ "balanced").
Proof.
  destruct (MoodAnalyzerFacts.sentiment_tags_iff s)
    as (_ & Hneg & Hpos & Hneu & Hnone).
  assert (Hdesc : (3 # 10 < s ∧ MoodSummary.sentiment_desc s = "positive")
                  ∨ (s < -3 # 10 ∧ MoodSummary.sentiment_desc s = "challenging")
                  ∨ ((-3 # 10 <= s ∧ s <= 3 # 10)
                     ∧ MoodSummary.sentiment_desc s = "balanced")).
  { unfold MoodSummary.sentiment_desc.
    destruct (Qltb (3 # 10) s) eqn:H1;
      [left; by apply MoodAnalyzerFacts.Qltb_true in H1|].
    destruct (Qltb s (-3 # 10)) eqn:H2;
      [right; left; by apply MoodAnalyzerFacts.Qltb_true in H2|].
    right; right. apply MoodAnalyzerFacts.Qltb_false in H1, H2. done. }
  rewrite Hneg, Hpos, Hneu, Hnone.
  destruct Hdesc as [[Ha ->]|[[Ha ->]|[[Ha Hb] ->]]];
    split_and!; try (split; intros H); try (intros H);
    try discriminate; try reflexivity;
    try (split; [|discriminate]);
    destruct s as [n d]; unfold Qle, Qlt in *; simpl in *; lia.
Qed.

Lemma summary_descriptor_bands_witness :
  sentiment_tags (35 # 100) = []
  ∧ MoodSummary.sentiment_desc (35 # 100) ≠ "balanced".
Proof.
  apply (proj2 (proj2 (proj2 (proj2 (proj2 (proj2
           (summary_descriptor_bands (35 # 100)))))))).
  left. split; reflexivity || discriminate.
Defined.

End MoodAnalyzerMore.

(** ** The feedback buttons *)

Module ButtonsFacts.
Import UserProfile Buttons.

(** X17. On a title that is not yet liked and is found in the catalog, the
    "Loved" button appends the title to [liked_recipes] and leaves
    [disliked_recipes] alone, so a disliked title ends up in both lists.
    When the recipe's cuisine has no entry in [cuisine_preferences] the
    click ends in a key error after the title was appended, with affinities
    and mood patterns unchanged; otherwise the affinity grows by 0.1 with
    no upper limit. *)
Theorem love_button_effects (df : DataFrame) (last_mood_tags : list string)
  (recipe : string) (prefs : Profile) (recipe_row : Row) :
  recipe ∉ liked_recipes prefs →
  first_row_titled df recipe = Some recipe_row →
  let after := fst (love_button df last_mood_tags recipe prefs) in
  let raised := snd (love_button df last_mood_tags recipe prefs) in
  liked_recipes after = liked_recipes prefs ++ [recipe]
  ∧ disliked_recipes after = disliked_recipes prefs
  ∧ (recipe ∈ disliked_recipes prefs →
     recipe ∈ liked_recipes after ∧ recipe ∈ disliked_recipes after)
  ∧ (cuisine_preferences prefs !! cuisine recipe_row = None →
     raised = Some CuisineKeyError
     ∧ cuisine_preferences after = cuisine_preferences prefs
     ∧ mood_patterns after = mood_patterns prefs)
  ∧ (∀ current, cuisine_preferences prefs !! cuisine recipe_row = Some current →
     raised = None
     ∧ cuisine_preferences after !! cuisine recipe_row
       = Some (current + (1 # 10))).
Proof.
  intros Hnew Hrow after raised. subst after raised. unfold love_button.
  apply py_in_false in Hnew. rewrite Hnew, Hrow. cbn [with_liked cuisine_preferences].
  destruct (cuisine_preferences prefs !! cuisine recipe_row) as [current|] eqn:Hc;
    cbn [fst snd liked_recipes disliked_recipes cuisine_preferences mood_patterns
         with_liked].
  - split_and!; [done|done| |done|].
    + intros Hd. split; [|done]. apply elem_of_app. right.
      by apply list_elem_of_singleton.
    + intros v [= <-]. split; [done|apply lookup_insert_eq].
  - split_and!; [done|done| |done|done].
    intros Hd. split; [|done]. apply elem_of_app. right.
    by apply list_elem_of_singleton.
Qed.

Lemma love_button_effects_witness :
  snd (love_button {| columns := catalog_columns; rows := [mystery_dish] |}
         ["comfort"] "Mystery Dish" (initialize_profile 0))
  = Some CuisineKeyError
  ∧ liked_recipes
      (fst (love_button {| columns := catalog_columns; rows := [mystery_dish] |}
              ["comfort"] "Mystery Dish" (initialize_profile 0)))
    = ["Mystery Dish"].
Proof.
  pose proof (love_button_effects
                {| columns := catalog_columns; rows := [mystery_dish] |}
                ["comfort"] "Mystery Dish" (initialize_profile 0) mystery_dish)
    as H.
  destruct H as (Hl & _ & _ & Hk & _).
  - apply not_elem_of_nil.
  - vm_compute. reflexivity.
  - split; [|exact Hl]. apply Hk. vm_compute. reflexivity.
Defined.

(** X18. The "Didn't like" button only ever appends to
    [disliked_recipes]: it leaves [liked_recipes] and the affinities as
    they are, so a liked title ends up in both lists, and a second click
    changes nothing. *)
Theorem dislike_button_effects (recipe : string) (prefs : Profile) :
  let after := dislike_button recipe prefs in
  recipe ∈ disliked_recipes after
  ∧ liked_recipes after = liked_recipes prefs
  ∧ cuisine_preferences after = cuisine_preferences prefs
  ∧ (recipe ∉ disliked_recipes prefs →
     disliked_recipes after = disliked_recipes prefs ++ [recipe])
  ∧ (recipe ∈ liked_recipes prefs →
     recipe ∈ liked_recipes after ∧ recipe ∈ disliked_recipes after)
  ∧ dislike_button recipe after = after.
Proof.
  intros after. subst after. unfold dislike_button.
  destruct (py_in recipe (disliked_recipes prefs)) eqn:Hin.
  - rewrite Hin. apply py_in_true in Hin. split_and!; [done..| |done].
    intros Hl. by split.
  - assert (Hnow : recipe ∈ disliked_recipes prefs ++ [recipe]).
    { apply elem_of_app. right. by apply list_elem_of_singleton. }
    cbn [liked_recipes disliked_recipes cuisine_preferences].
    apply py_in_true in Hnow as Hnow'. rewrite Hnow'.
    split_and!; [done..| |done].
    intros Hl. by split.
Qed.

Lemma dislike_button_effects_witness :
  "Chicken Karahi" ∈ liked_recipes (dislike_button "Chicken Karahi" App.desi_fan)
  ∧ "Chicken Karahi"
    ∈ disliked_recipes (dislike_button "Chicken Karahi" App.desi_fan).
Proof.
  apply (proj1 (proj2 (proj2 (proj2 (proj2
           (dislike_button_effects "Chicken Karahi" App.desi_fan)))))).
  simpl. by apply list_elem_of_singleton.
Defined.

End ButtonsFacts.

(** ** Embeddings, continued *)

Module EmbedderMore.
Import Embedder.

Lemma Forall2_Qeq_refl (v : list Q) : Forall2 Qeq v v.
Proof. induction v; constructor; [reflexivity|done]. Qed.

(** X19. The cook time enters the enhanced embedding through its last
    component only, which is [0.1 * cook_time / 60] up to an hour and 0.1
    from an hour on: all cook times of 60 minutes or more give the same
    vector. *)
Theorem cook_time_saturates (get_embedding : string → list Q)
  (description_ cuisine_ meal_time_ : string) (cook_time_ : Z) :
  let enhanced := get_enhanced_embedding get_embedding description_ cuisine_
                    meal_time_ cook_time_ in
  (∃ front last_component,
      enhanced = front ++ [last_component]
      ∧ front = take (length (get_embedding description_) + 6) 
                  (get_enhanced_embedding get_embedding description_ cuisine_
                     meal_time_ 0)
      ∧ ((cook_time_ ≤ 60)%Z →
         last_component == inject_Z cook_time_ / 60 * (1 # 10))
      ∧ ((60 ≤ cook_time_)%Z → last_component == 1 # 10))
  ∧ ((60 ≤ cook_time_)%Z →
     Forall2 Qeq enhanced
       (get_enhanced_embedding get_embedding description_ cuisine_ meal_time_ 60)).
Proof.
  intros enhanced. subst enhanced. unfold get_enhanced_embedding.
  set (text := scale (7 # 10) (get_embedding description_)).
  set (cu := scale (2 # 10) (dict_get cuisine_weights cuisine_ _)).
  set (ti := scale (1 # 10) (dict_get time_weights meal_time_ _)).
  assert (Hlen : length (text ++ cu ++ ti)
                 = (length (get_embedding description_) + 6)%nat).
  { subst text cu ti. unfold scale.
    rewrite !length_app, !length_map, EmbedderFacts.cuisine_lookup,
      EmbedderFacts.time_lookup, EmbedderFacts.length_cuisineVector,
      EmbedderFacts.length_timeVector. lia. }
  assert (Hle : ∀ ct : Z, (ct ≤ 60)%Z → inject_Z ct / 60 <= 1).
  { intros ct Hct. unfold Qle, Qdiv, Qmult, Qinv, inject_Z. simpl. lia. }
  assert (Hge : ∀ ct : Z, (60 ≤ ct)%Z → 1 <= inject_Z ct / 60).
  { intros ct Hct. unfold Qle, Qdiv, Qmult, Qinv, inject_Z. simpl. lia. }
  split.
  - exists (text ++ cu ++ ti), (Qmin (inject_Z cook_time_ / 60) 1 * (1 # 10)).
    split_and!.
    + by rewrite <- !app_assoc.
    + rewrite <- Hlen, !app_assoc, take_app_length. by rewrite <- !app_assoc.
    + intros Hct. by rewrite (Q.min_l _ _ (Hle _ Hct)).
    + intros Hct. by rewrite (Q.min_r _ _ (Hge _ Hct)).
  - intros Hct. rewrite !app_assoc. apply Forall2_app; [apply Forall2_Qeq_refl|].
    constructor; [|constructor].
    rewrite (Q.min_r _ _ (Hge _ Hct)), (Q.min_r _ _ (Hge 60%Z ltac:(lia))).
    reflexivity.
Qed.

Lemma cook_time_saturates_witness :
  Forall2 Qeq
    (get_enhanced_embedding App.sample_embedding "spicy chicken curry" "Desi"
       "Dinner" 90)
    (get_enhanced_embedding App.sample_embedding "spicy chicken curry" "Desi"
       "Dinner" 60).
Proof.
  apply (proj2 (cook_time_saturates App.sample_embedding "spicy chicken curry"
                  "Desi" "Dinner" 90)).
  lia.
Defined.

End EmbedderMore.
